(** * The session coordinator of the recipe application (use-auth)

    A shallow embedding of the authentication provider component
    ([AuthProvider]): the subscription handler [handleUser], the start-up
    redirect check, and the operations [signInWithGoogle],
    [signInWithEmail], [signUpWithEmail], [sendPasswordReset] and
    [signOut].

    The identity provider (Firebase Auth) and the profile store (Firestore)
    are external: every call to them is recorded in a trace and its outcome
    is read from an environment of outcomes, so every theorem below
    quantifies over what the collaborators answer, failures included.
    JavaScript exceptions are the left summand of the result; state
    changes made before an exception are kept, as in the source. *)

From stdpp Require Import gmap strings list.
From Stdlib Require Import ZArith Ascii String DecimalString DecimalPos.

Set Warnings "-register-all".
Open Scope string_scope.

(** ** JavaScript strings *)

Module JS.

(** [s.split(sep)] for a one-character separator: always at least one
    segment, an empty segment where the separator starts or ends the
    text. *)
Fixpoint split (sep : ascii) (s : string) : list string :=
  match s with
  | EmptyString => [EmptyString]
  | String c s' =>
      if Ascii.eqb c sep then EmptyString :: split sep s'
      else match split sep s' with
           | x :: xs => String c x :: xs
           | [] => [String c EmptyString]
           end
  end.

(** [s.includes(sub)]: [sub] occurs somewhere in [s]. *)
Fixpoint includes (sub s : string) : bool :=
  if String.prefix sub s then true
  else match s with
       | EmptyString => false
       | String _ s' => includes sub s'
       end.

(** [xs.includes(x)] on an array of strings, where [x] may be
    [undefined] ([None]); [undefined] is never an element of an array
    of strings. *)
Definition array_includes (xs : list string) (x : option string) : bool :=
  match x with
  | Some d => existsb (String.eqb d) xs
  | None => false
  end.

(** [a || b] on strings that may be [null]: [null] and the empty string
    are falsy. *)
Definition or_else (a : option string) (b : string) : string :=
  match a with
  | Some (String c s) => String c s
  | Some EmptyString | None => b
  end.

(** An exception value: a FirebaseError carries a [code], a plain
    [Error] or a [SyntaxError] has none ([undefined]). *)
Record Error := mkError {
  name : string;
  code : option string;
  message : string
}.

(** [new Error(msg)] *)
Definition new_Error (msg : string) : Error :=
  {| name := "Error"; code := None; message := msg |}.

(** [x === 'lit'] where [x] may be [undefined]. *)
Definition strict_eq (x : option string) (lit : string) : bool :=
  match x with
  | Some s => String.eqb s lit
  | None => false
  end.

End JS.

(** ** JSON.parse

    The built-in parser, as a tokenizer followed by a push-down recognizer,
    both by structural recursion on their input.  Number and string values
    keep their source text (no conversion to floating point, escapes not
    decoded): the coordinator only stores what was parsed. *)

Module JSON.

(** The members of an object are kept in the order of the text, a
    repeated key included. *)
Inductive value :=
| Null
| Bool (b : bool)
| Number (lexeme : string)
| Str (raw : string)
| Array (elements : list value)
| Object (members : list (string * value)).

Inductive token :=
| TLBracket | TRBracket | TLBrace | TRBrace | TComma | TColon
| TString (raw : string) | TNumber (lexeme : string)
| TTrue | TFalse | TNull.

Inductive num_state :=
| NMinus | NZero | NInt | NDot | NFrac | NExpMark | NExpSign | NExp.

Inductive lex_state :=
| LIdle
| LString (acc : string)
| LEscape (acc : string)
| LUnicode (acc : string) (left : nat)
| LNumber (acc : string) (ns : num_state)
| LWord (rest : string) (t : token).

Definition dquote : ascii := ascii_of_nat 34.
Definition backslash : ascii := ascii_of_nat 92.

Definition is_ws (c : ascii) : bool :=
  let n := nat_of_ascii c in
  ((n =? 32) || (n =? 9) || (n =? 10) || (n =? 13))%nat.

Definition is_digit (c : ascii) : bool :=
  let n := nat_of_ascii c in ((48 <=? n) && (n <=? 57))%nat.

Definition is_digit19 (c : ascii) : bool :=
  let n := nat_of_ascii c in ((49 <=? n) && (n <=? 57))%nat.

Definition is_hex (c : ascii) : bool :=
  let n := nat_of_ascii c in
  (((48 <=? n) && (n <=? 57)) || ((65 <=? n) && (n <=? 70))
   || ((97 <=? n) && (n <=? 102)))%nat.

Definition is_control (c : ascii) : bool := (nat_of_ascii c <? 32)%nat.

Definition snoc (s : string) (c : ascii) : string :=
  s +:+ String c EmptyString.

(** A number is an optional minus sign, then either a single zero or a
    non-zero digit followed by digits, then optionally a dot with at
    least one digit, then optionally an exponent mark, an optional
    sign and at least one digit. *)
Definition num_step (ns : num_state) (c : ascii) : option num_state :=
  match ns with
  | NMinus =>
      if Ascii.eqb c "0" then Some NZero
      else if is_digit19 c then Some NInt else None
  | NZero =>
      if Ascii.eqb c "." then Some NDot
      else if Ascii.eqb c "e" || Ascii.eqb c "E" then Some NExpMark
      else None
  | NInt =>
      if is_digit c then Some NInt
      else if Ascii.eqb c "." then Some NDot
      else if Ascii.eqb c "e" || Ascii.eqb c "E" then Some NExpMark
      else None
  | NDot => if is_digit c then Some NFrac else None
  | NFrac =>
      if is_digit c then Some NFrac
      else if Ascii.eqb c "e" || Ascii.eqb c "E" then Some NExpMark
      else None
  | NExpMark =>
      if Ascii.eqb c "+" || Ascii.eqb c "-" then Some NExpSign
      else if is_digit c then Some NExp else None
  | NExpSign => if is_digit c then Some NExp else None
  | NExp => if is_digit c then Some NExp else None
  end.

Definition num_final (ns : num_state) : bool :=
  match ns with
  | NZero | NInt | NFrac | NExp => true
  | NMinus | NDot | NExpMark | NExpSign => false
  end.

(** A character met between tokens: the state it leads to and the
    token it completes, if any. *)
Definition lex_idle (c : ascii) : option (lex_state * option token) :=
  if is_ws c then Some (LIdle, None)
  else if Ascii.eqb c "[" then Some (LIdle, Some TLBracket)
  else if Ascii.eqb c "]" then Some (LIdle, Some TRBracket)
  else if Ascii.eqb c "{" then Some (LIdle, Some TLBrace)
  else if Ascii.eqb c "}" then Some (LIdle, Some TRBrace)
  else if Ascii.eqb c "," then Some (LIdle, Some TComma)
  else if Ascii.eqb c ":" then Some (LIdle, Some TColon)
  else if Ascii.eqb c dquote then Some (LString EmptyString, None)
  else if Ascii.eqb c "-" then Some (LNumber "-" NMinus, None)
  else if Ascii.eqb c "0" then Some (LNumber "0" NZero, None)
  else if is_digit19 c then Some (LNumber (String c EmptyString) NInt, None)
  else if Ascii.eqb c "t" then Some (LWord "rue" TTrue, None)
  else if Ascii.eqb c "f" then Some (LWord "alse" TFalse, None)
  else if Ascii.eqb c "n" then Some (LWord "ull" TNull, None)
  else None.

Definition emit (t : option token) (ts : list token) : list token :=
  match t with
  | Some t => t :: ts
  | None => ts
  end.

Definition is_simple_escape (c : ascii) : bool :=
  Ascii.eqb c dquote || Ascii.eqb c backslash || Ascii.eqb c "/"
  || Ascii.eqb c "b" || Ascii.eqb c "f" || Ascii.eqb c "n"
  || Ascii.eqb c "r" || Ascii.eqb c "t".

Fixpoint lex (st : lex_state) (s : string) : option (list token) :=
  match s with
  | EmptyString =>
      match st with
      | LIdle => Some []
      | LNumber acc ns => if num_final ns then Some [TNumber acc] else None
      | _ => None
      end
  | String c s' =>
      match st with
      | LIdle =>
          match lex_idle c with
          | Some (st', t) => emit t <$> lex st' s'
          | None => None
          end
      | LString acc =>
          if Ascii.eqb c dquote then cons (TString acc) <$> lex LIdle s'
          else if Ascii.eqb c backslash then lex (LEscape (snoc acc c)) s'
          else if is_control c then None
          else lex (LString (snoc acc c)) s'
      | LEscape acc =>
          if is_simple_escape c then lex (LString (snoc acc c)) s'
          else if Ascii.eqb c "u" then lex (LUnicode (snoc acc c) 4) s'
          else None
      | LUnicode acc k =>
          if is_hex c then
            match k with
            | 0 => None
            | 1 => lex (LString (snoc acc c)) s'
            | S k' => lex (LUnicode (snoc acc c) k') s'
            end
          else None
      | LNumber acc ns =>
          match num_step ns c with
          | Some ns' => lex (LNumber (snoc acc c) ns') s'
          | None =>
              if num_final ns then
                match lex_idle c with
                | Some (st', t) =>
                    (fun ts => TNumber acc :: emit t ts) <$> lex st' s'
                | None => None
                end
              else None
          end
      | LWord rest t =>
          match rest with
          | String x rest' =>
              if Ascii.eqb c x then
                match rest' with
                | EmptyString => cons t <$> lex LIdle s'
                | _ => lex (LWord rest' t) s'
                end
              else None
          | EmptyString => None
          end
      end
  end.

(** The containers still open, innermost first; an object frame holds
    the key whose value is awaited. *)
Inductive frame :=
| InArray (acc : list value)
| InObject (acc : list (string * value)) (key : option string).

Inductive pstate :=
| PStart (stk : list frame)
| PArrayFirst (stk : list frame)
| PObjectFirst (stk : list frame)
| PKey (stk : list frame)
| PColon (stk : list frame)
| PAfter (stk : list frame)
| PDone (v : value).

Definition complete (v : value) (stk : list frame) : option pstate :=
  match stk with
  | [] => Some (PDone v)
  | InArray acc :: stk' => Some (PAfter (InArray (acc ++ [v]) :: stk'))
  | InObject acc (Some k) :: stk' =>
      Some (PAfter (InObject (acc ++ [(k, v)]) None :: stk'))
  | InObject _ None :: _ => None
  end.

Definition value_token (t : token) (stk : list frame) : option pstate :=
  match t with
  | TLBracket => Some (PArrayFirst (InArray [] :: stk))
  | TLBrace => Some (PObjectFirst (InObject [] None :: stk))
  | TString s => complete (Str s) stk
  | TNumber s => complete (Number s) stk
  | TTrue => complete (Bool true) stk
  | TFalse => complete (Bool false) stk
  | TNull => complete Null stk
  | TRBracket | TRBrace | TComma | TColon => None
  end.

Definition close_array (stk : list frame) : option pstate :=
  match stk with
  | InArray acc :: stk' => complete (Array acc) stk'
  | _ => None
  end.

Definition close_object (stk : list frame) : option pstate :=
  match stk with
  | InObject acc None :: stk' => complete (Object acc) stk'
  | _ => None
  end.

Definition set_key (k : string) (stk : list frame) : option pstate :=
  match stk with
  | InObject acc None :: stk' => Some (PColon (InObject acc (Some k) :: stk'))
  | _ => None
  end.

Definition step (st : pstate) (t : token) : option pstate :=
  match st with
  | PStart stk => value_token t stk
  | PArrayFirst stk =>
      match t with
      | TRBracket => close_array stk
      | _ => value_token t stk
      end
  | PObjectFirst stk =>
      match t with
      | TRBrace => close_object stk
      | TString k => set_key k stk
      | _ => None
      end
  | PKey stk =>
      match t with
      | TString k => set_key k stk
      | _ => None
      end
  | PColon stk =>
      match t with
      | TColon => Some (PStart stk)
      | _ => None
      end
  | PAfter stk =>
      match t, stk with
      | TComma, InArray _ :: _ => Some (PStart stk)
      | TComma, InObject _ _ :: _ => Some (PKey stk)
      | TRBracket, _ => close_array stk
      | TRBrace, _ => close_object stk
      | _, _ => None
      end
  | PDone _ => None
  end.

Fixpoint run (st : pstate) (ts : list token) : option pstate :=
  match ts with
  | [] => Some st
  | t :: ts' =>
      match step st t with
      | Some st' => run st' ts'
      | None => None
      end
  end.

(** The exception of a failed parse.  Its message differs between
    engines; nothing in the coordinator reads it. *)
Definition SyntaxError : JS.Error :=
  {| JS.name := "SyntaxError"; JS.code := None;
     JS.message := "JSON.parse: unexpected token or end of input" |}.

Definition parse (text : string) : JS.Error + value :=
  match lex LIdle text with
  | Some ts =>
      match run (PStart []) ts with
      | Some (PDone v) => inr v
      | _ => inl SyntaxError
      end
  | None => inl SyntaxError
  end.

End JSON.

(** ** Data of the coordinator *)

(** The provider's user record, with the fields the coordinator reads. *)
Module User.
Record t := mk {
  uid : string;
  displayName : option string;
  email : option string;
  emailVerified : bool;
  photoURL : option string
}.
End User.

(** The profile document stored under [users/<uid>].  Timestamps are
    milliseconds since the epoch. *)
Module Doc.
Record t := mk {
  uid : string;
  displayName : option string;
  email : option string;
  photoURL : option string;
  lastLogin : Z;
  createdAt : Z;
  cookbook : JSON.value;
  variationBook : JSON.value
}.

Definition with_lastLogin (d : t) (now : Z) : t :=
  {| uid := uid d; displayName := displayName d; email := email d;
     photoURL := photoURL d; lastLogin := now; createdAt := createdAt d;
     cookbook := cookbook d; variationBook := variationBook d |}.
End Doc.

Inductive Variant := Default | Destructive.

Record Toast := mkToast {
  variant : Variant;
  title : string;
  description : option string
}.

(** Calls to the two collaborators, with the arguments that matter. *)
Inductive Call :=
| C_signInWithRedirect
| C_getRedirectResult
| C_signInWithEmailAndPassword (email pass : string)
| C_createUserWithEmailAndPassword (email pass : string)
| C_updateProfile (u : User.t) (name : string)
| C_sendEmailVerification (u : User.t)
| C_sendPasswordResetEmail (email : string)
| C_deleteUser (u : User.t)
| C_firebaseSignOut
| C_getDoc (id : string)
| C_setDoc (id : string) (d : Doc.t) (merge : bool)
| C_updateDoc (id : string) (lastLogin : Z).

(** What an operation does besides changing the state, in order. *)
Inductive Event :=
| Remote (c : Call)
| Toasted (t : Toast)
| Logged (label : string) (e : JS.Error).

(** What the collaborators answer: [None] in an [option JS.Error] is
    success.  [now] is what [new Date()] reads during the operation. *)
Record Env := mkEnv {
  signInWithRedirect_out : option JS.Error;
  getRedirectResult_out : JS.Error + option User.t;
  signInWithEmailAndPassword_out : string -> string -> JS.Error + User.t;
  createUserWithEmailAndPassword_out : string -> string -> JS.Error + User.t;
  updateProfile_out : User.t -> string -> option JS.Error;
  sendEmailVerification_out : User.t -> option JS.Error;
  sendPasswordResetEmail_out : string -> option JS.Error;
  deleteUser_out : User.t -> option JS.Error;
  firebaseSignOut_out : option JS.Error;
  getDoc_out : string -> option JS.Error;
  setDoc_out : string -> option JS.Error;
  updateDoc_out : string -> option JS.Error;
  now : Z
}.

(** The component state ([user], [loading]), the browser's local
    storage, the [users] collection and the trace of effects. *)
Record World := mkWorld {
  user : option User.t;
  loading : bool;
  localStorage : gmap string string;
  users : gmap string Doc.t;
  trace : list Event
}.

(** [useState(null)], [useState(true)] *)
Definition initial (ls : gmap string string) (db : gmap string Doc.t) : World :=
  {| user := None; loading := true; localStorage := ls; users := db;
     trace := [] |}.

(** ** Asynchronous computations: state and exceptions *)

Definition Async (A : Type) : Type := World -> (JS.Error + A) * World.

Definition ret {A} (a : A) : Async A := fun w => (inr a, w).

Definition bind {A B} (m : Async A) (k : A -> Async B) : Async B :=
  fun w =>
    match m w with
    | (inr a, w') => k a w'
    | (inl e, w') => (inl e, w')
    end.

Definition throw {A} (e : JS.Error) : Async A := fun w => (inl e, w).

(** [try { m } catch (error) { h error }] *)
Definition try_catch {A} (m : Async A) (h : JS.Error -> Async A) : Async A :=
  fun w =>
    match m w with
    | (inr a, w') => (inr a, w')
    | (inl e, w') => h e w'
    end.

Declare Scope async_scope.
Delimit Scope async_scope with async.
Bind Scope async_scope with Async.

Notation "x <- m ;; k" := (bind m (fun x => k))
  (at level 100, m at next level, right associativity) : async_scope.
Notation "m ;; k" := (bind m (fun _ => k))
  (at level 100, right associativity) : async_scope.

Open Scope async_scope.

Definition emit (ev : Event) : Async unit :=
  fun w =>
    (inr tt,
     {| user := user w; loading := loading w; localStorage := localStorage w;
        users := users w; trace := trace w ++ [ev] |}).

Definition setUser (u : option User.t) : Async unit :=
  fun w =>
    (inr tt,
     {| user := u; loading := loading w; localStorage := localStorage w;
        users := users w; trace := trace w |}).

Definition setLoading (b : bool) : Async unit :=
  fun w =>
    (inr tt,
     {| user := user w; loading := b; localStorage := localStorage w;
        users := users w; trace := trace w |}).

Definition put_users (db : gmap string Doc.t) : Async unit :=
  fun w =>
    (inr tt,
     {| user := user w; loading := loading w; localStorage := localStorage w;
        users := db; trace := trace w |}).

Definition toast (t : Toast) : Async unit := emit (Toasted t).

Definition console_error (label : string) (e : JS.Error) : Async unit :=
  emit (Logged label e).

(** [localStorage.getItem(key)] *)
Definition getItem (key : string) : Async (option string) :=
  fun w => (inr (localStorage w !! key), w).

(** A synchronous computation that may throw. *)
Definition lift {A} (r : JS.Error + A) : Async A :=
  match r with
  | inr a => ret a
  | inl e => throw e
  end.

(** A remote call without a result: recorded, then its outcome. *)
Definition call (c : Call) (out : option JS.Error) : Async unit :=
  emit (Remote c) ;;
  match out with
  | None => ret tt
  | Some e => throw e
  end.

(** A remote call with a result. *)
Definition call_for {A} (c : Call) (out : JS.Error + A) : Async A :=
  emit (Remote c) ;; lift out.

(** ** The collaborators, as the coordinator calls them *)

Section Coordinator.

Variable E : Env.

Definition signInWithRedirect : Async unit :=
  call C_signInWithRedirect (signInWithRedirect_out E).

Definition getRedirectResult : Async (option User.t) :=
  call_for C_getRedirectResult (getRedirectResult_out E).

Definition signInWithEmailAndPassword (email pass : string) : Async User.t :=
  call_for (C_signInWithEmailAndPassword email pass)
           (signInWithEmailAndPassword_out E email pass).

Definition createUserWithEmailAndPassword (email pass : string) : Async User.t :=
  call_for (C_createUserWithEmailAndPassword email pass)
           (createUserWithEmailAndPassword_out E email pass).

Definition updateProfile (u : User.t) (name : string) : Async unit :=
  call (C_updateProfile u name) (updateProfile_out E u name).

Definition sendEmailVerification (u : User.t) : Async unit :=
  call (C_sendEmailVerification u) (sendEmailVerification_out E u).

Definition sendPasswordResetEmail (email : string) : Async unit :=
  call (C_sendPasswordResetEmail email) (sendPasswordResetEmail_out E email).

Definition deleteUser (u : User.t) : Async unit :=
  call (C_deleteUser u) (deleteUser_out E u).

Definition firebaseSignOut : Async unit :=
  call C_firebaseSignOut (firebaseSignOut_out E).

(** [getDoc(ref)]: the snapshot is the stored document, or none
    ([exists()] is false). *)
Definition getDoc (id : string) : Async (option Doc.t) :=
  call (C_getDoc id) (getDoc_out E id) ;;
  fun w => (inr (users w !! id), w).

(** [setDoc(ref, data)] and [setDoc(ref, data, { merge: true })].  Both
    callers pass every field of the document, so merging into an
    existing document and replacing it give the same document. *)
Definition setDoc (id : string) (d : Doc.t) (merge : bool) : Async unit :=
  call (C_setDoc id d merge) (setDoc_out E id) ;;
  fun w => put_users (<[id := d]> (users w)) w.

(** The store's answer to an update of a document that does not exist. *)
Definition not_found : JS.Error :=
  {| JS.name := "FirebaseError"; JS.code := Some "not-found";
     JS.message := "No document to update" |}.

(** [updateDoc(ref, { lastLogin })]: only that field changes. *)
Definition updateDoc (id : string) (lastLogin : Z) : Async unit :=
  call (C_updateDoc id lastLogin) (updateDoc_out E id) ;;
  fun w =>
    match users w !! id with
    | Some d => put_users (<[id := Doc.with_lastLogin d lastLogin]> (users w)) w
    | None => throw not_found w
    end.

(** ** The coordinator *)

Definition ALLOWED_DOMAINS : list string :=
  ["gmail.com"; "yahoo.com"; "outlook.com"; "microsoft.com"].

(** [JSON.parse(localStorage.getItem(key) || '[]')] *)
Definition readLocal (key : string) : Async JSON.value :=
  item <- getItem key ;;
  lift (JSON.parse (JS.or_else item "[]")).

(** The subscriber of [onAuthStateChanged]. *)
Definition handleUser (currentUser : option User.t) : Async unit :=
  match currentUser with
  | Some u =>
      if User.emailVerified u then
        setUser (Some u) ;;
        userDoc <- getDoc (User.uid u) ;;
        match userDoc with
        | None =>
            localCookbook <- readLocal "cookbookRecipes" ;;
            localVariations <- readLocal "variationBook" ;;
            setDoc (User.uid u)
              {| Doc.uid := User.uid u;
                 Doc.displayName := User.displayName u;
                 Doc.email := User.email u;
                 Doc.photoURL := User.photoURL u;
                 Doc.lastLogin := now E;
                 Doc.createdAt := now E;
                 Doc.cookbook := localCookbook;
                 Doc.variationBook := localVariations |}
              true
        | Some _ => updateDoc (User.uid u) (now E)
        end
      else setUser None
  | None => setUser None
  end ;;
  setLoading false.

(** [`Welcome back, ${name || 'friend'}!`] *)
Definition welcome (name : option string) : string :=
  "Welcome back, " +:+ JS.or_else name "friend" +:+ "!".

(** The start-up check [getRedirectResult(auth).then(...).catch(...)]. *)
Definition redirectCheck : Async unit :=
  try_catch
    (result <- getRedirectResult ;;
     match result with
     | Some u =>
         toast {| variant := Default;
                  title := welcome (User.displayName u);
                  description := Some "You've successfully signed in." |}
     | None => ret tt
     end)
    (fun error =>
       console_error "Error getting redirect result:" error ;;
       if negb (JS.strict_eq (JS.code error) "auth/web-storage-unsupported")
       then toast {| variant := Destructive;
                     title := "Sign-In Failed";
                     description :=
                       Some "An unexpected error occurred during sign-in." |}
       else ret tt).

Definition signInWithGoogle : Async unit :=
  setLoading true ;;
  try_catch signInWithRedirect
    (fun error =>
       console_error "Error during sign-in redirect: " error ;;
       toast {| variant := Destructive;
                title := "Sign-In Failed";
                description := Some (JS.message error) |} ;;
       setLoading false).

Definition NotVerified : JS.Error := JS.new_Error "Email not verified".

Definition signInWithEmail (email pass : string) : Async unit :=
  try_catch
    (result <- signInWithEmailAndPassword email pass ;;
     (if negb (User.emailVerified result)
      then firebaseSignOut ;; throw NotVerified
      else ret tt) ;;
     updateDoc (User.uid result) (now E) ;;
     toast {| variant := Default;
              title := welcome (User.displayName result);
              description := None |})
    (fun error =>
       console_error "Error signing in with email: " error ;;
       throw error).

Definition DomainNotAllowed : JS.Error :=
  JS.new_Error
    "Please use a valid email provider (Gmail, Yahoo, Outlook, or Microsoft).".

Definition VerificationSendFailed : JS.Error :=
  JS.new_Error "Failed to send verification email.".

(** The test of the recovery block on the failure it caught. *)
Definition blames_verification (error : JS.Error) : bool :=
  JS.strict_eq (JS.code error) "auth/network-request-failed"
  || JS.includes "sendEmailVerification" (JS.message error).

Definition signUpWithEmail (email pass name : string) : Async unit :=
  let domain := JS.split "@" email !! 1 in
  if negb (JS.array_includes ALLOWED_DOMAINS domain) then
    throw DomainNotAllowed
  else
    userToVerify <- createUserWithEmailAndPassword email pass ;;
    try_catch
      (updateProfile userToVerify name ;;
       sendEmailVerification userToVerify ;;
       setDoc (User.uid userToVerify)
         {| Doc.uid := User.uid userToVerify;
            Doc.displayName := Some name;
            Doc.email := User.email userToVerify;
            Doc.photoURL := None;
            Doc.lastLogin := now E;
            Doc.createdAt := now E;
            Doc.cookbook := JSON.Array [];
            Doc.variationBook := JSON.Array [] |}
         false ;;
       firebaseSignOut)
      (fun error =>
         console_error "Error during sign up, attempting to clean up user:"
                       error ;;
         try_catch (deleteUser userToVerify)
           (fun e => console_error "Failed to cleanup user:" e) ;;
         if blames_verification error then throw VerificationSendFailed
         else throw error).

Definition sendPasswordReset (email : string) : Async unit :=
  try_catch (sendPasswordResetEmail email)
    (fun error =>
       console_error "Error sending password reset email: " error).

Definition signOut : Async unit :=
  try_catch
    (firebaseSignOut ;;
     setUser None ;;
     toast {| variant := Default;
              title := "Signed Out";
              description := Some "You have been successfully signed out." |})
    (fun error =>
       console_error "Error during sign-out: " error ;;
       toast {| variant := Destructive;
                title := "Sign-Out Failed";
                description := Some (JS.message error) |}).

End Coordinator.

(** ** Runs of the coordinator

    What the application does to the coordinator, one step at a time: the
    provider delivers a session-change notification, the start-up check
    runs, or the interface calls an operation.  [handleUser] writes
    [user] before its first suspension point, so a step is a faithful
    unit for everything said about [user] below. *)

Inductive Action :=
| Notified (currentUser : option User.t)
| RedirectChecked
| SignInWithGoogle
| SignInWithEmail (email pass : string)
| SignUpWithEmail (email pass name : string)
| SendPasswordReset (email : string)
| SignOut.

Definition is_notification (a : Action) : bool :=
  match a with
  | Notified _ => true
  | _ => false
  end.

Definition perform (step : Env * Action) (w : World) : World :=
  let (E, a) := step in
  snd (match a with
       | Notified currentUser => handleUser E currentUser w
       | RedirectChecked => redirectCheck E w
       | SignInWithGoogle => signInWithGoogle E w
       | SignInWithEmail email pass => signInWithEmail E email pass w
       | SignUpWithEmail email pass name => signUpWithEmail E email pass name w
       | SendPasswordReset email => sendPasswordReset E email w
       | SignOut => signOut E w
       end).

Definition perform_all (steps : list (Env * Action)) (w : World) : World :=
  fold_left (fun w step => perform step w) steps w.

(** [w] with further events at the end of its trace, nothing else
    changed. *)
Definition log (w : World) (evs : list Event) : World :=
  {| user := user w; loading := loading w; localStorage := localStorage w;
     users := users w; trace := trace w ++ evs |}.

(** ** Notions of the specification *)

Module Spec.

(** The domain suffix of an address: the text that follows its (first)
    [@], none when there is no [@]. *)
Fixpoint domain_suffix (email : string) : option string :=
  match email with
  | EmptyString => None
  | String c s => if Ascii.eqb c "@" then Some s else domain_suffix s
  end.

(** The text after the last [@]. *)
Fixpoint after_last_at (email : string) : option string :=
  match email with
  | EmptyString => None
  | String c s =>
      match after_last_at s with
      | Some d => Some d
      | None => if Ascii.eqb c "@" then Some s else None
      end
  end.

Fixpoint occurrences (c : ascii) (s : string) : nat :=
  match s with
  | EmptyString => 0
  | String x s' => (if Ascii.eqb x c then 1 else 0) + occurrences c s'
  end.

Definition lower_ascii (c : ascii) : ascii :=
  let n := nat_of_ascii c in
  if ((65 <=? n) && (n <=? 90))%nat then ascii_of_nat (n + 32) else c.

Fixpoint to_lower (s : string) : string :=
  match s with
  | EmptyString => EmptyString
  | String c s' => String (lower_ascii c) (to_lower s')
  end.

(** The provider reported no user, or one whose email is not verified. *)
Definition absent_or_unverified (currentUser : option User.t) : Prop :=
  currentUser = None
  \/ exists u, currentUser = Some u /\ User.emailVerified u = false.

End Spec.

(** ** Derived notions

    Names for pieces of the code above and for the relations between a
    world and a later one that the proofs use. *)

(** A computation leaves every world [R]-related to the one it ends in. *)
Definition keeps (R : relation World) {A} (m : Async A) : Prop :=
  forall w, R w (snd (m w)).

(** [user] is what it was. *)
Definition same_user (w w' : World) : Prop := user w' = user w.

(** [user] is what it was, or has been cleared. *)
Definition kept_or_cleared (w w' : World) : Prop :=
  user w' = user w \/ user w' = None.

(** The trace has only grown. *)
Definition extends (w w' : World) : Prop :=
  exists evs, trace w' = (trace w ++ evs)%list.

(** The document written on a first login. *)
Definition first_profile (E : Env) (u : User.t) (cookbook variationBook : JSON.value)
  : Doc.t :=
  {| Doc.uid := User.uid u;
     Doc.displayName := User.displayName u;
     Doc.email := User.email u;
     Doc.photoURL := User.photoURL u;
     Doc.lastLogin := now E;
     Doc.createdAt := now E;
     Doc.cookbook := cookbook;
     Doc.variationBook := variationBook |}.

(** The text handed to [JSON.parse] for a key of the local storage. *)
Definition pending_text (w : World) (key : string) : string :=
  JS.or_else (localStorage w !! key) "[]".

(** ** Resolution of the initial state *)

Definition parses (text : string) : bool :=
  match JSON.parse text with
  | inr _ => true
  | inl _ => false
  end.

Definition succeeded (out : option JS.Error) : bool :=
  match out with
  | None => true
  | Some _ => false
  end.

(** Every step of the handler's first branch goes through: the lookup,
    then either the last-login update, or the two parses and the upsert. *)
Definition provisioning_succeeds (E : Env) (u : User.t) (w : World) : bool :=
  succeeded (getDoc_out E (User.uid u))
  && match users w !! User.uid u with
     | Some _ => succeeded (updateDoc_out E (User.uid u))
     | None =>
         parses (pending_text w "cookbookRecipes")
         && parses (pending_text w "variationBook")
         && succeeded (setDoc_out E (User.uid u))
     end.

(** Notifications handled one after the other. *)
Definition deliver (reports : list (Env * option User.t)) (w : World) : World :=
  fold_left (fun w r => snd (handleUser (fst r) (snd r) w)) reports w.

(** The notifications of the redirect check and of [signOut]. *)
Definition welcome_back (u : User.t) : Toast :=
  {| variant := Default;
     title := welcome (User.displayName u);
     description := Some "You've successfully signed in." |}.

Definition sign_in_failed : Toast :=
  {| variant := Destructive;
     title := "Sign-In Failed";
     description := Some "An unexpected error occurred during sign-in." |}.

Definition sign_out_failed (e : JS.Error) : Toast :=
  {| variant := Destructive;
     title := "Sign-Out Failed";
     description := Some (JS.message e) |}.

Definition signed_out : Toast :=
  {| variant := Default;
     title := "Signed Out";
     description := Some "You have been successfully signed out." |}.

(** The first failure among the four steps of the guarded block. *)
Definition block_failure (E : Env) (u : User.t) (name : string)
  : option JS.Error :=
  match updateProfile_out E u name with
  | Some e => Some e
  | None =>
      match sendEmailVerification_out E u with
      | Some e => Some e
      | None =>
          match setDoc_out E (User.uid u) with
          | Some e => Some e
          | None => firebaseSignOut_out E
          end
      end
  end.

(** ** Sample collaborators *)

Module Sample.

Definition ada : User.t :=
  {| User.uid := "uid-ada"; User.displayName := Some "Ada";
     User.email := Some "user@gmail.com"; User.emailVerified := true;
     User.photoURL := None |}.

(** A freshly created account: nothing verified, no display name. *)
Definition fresh (email : string) : User.t :=
  {| User.uid := "uid-new"; User.displayName := None;
     User.email := Some email; User.emailVerified := false;
     User.photoURL := None |}.

Definition network_failed : JS.Error :=
  {| JS.name := "FirebaseError";
     JS.code := Some "auth/network-request-failed";
     JS.message := "Firebase: Error (auth/network-request-failed)." |}.

Definition too_many_requests : JS.Error :=
  {| JS.name := "FirebaseError";
     JS.code := Some "auth/too-many-requests";
     JS.message := "Firebase: Error (auth/too-many-requests)." |}.

Definition offline : JS.Error :=
  {| JS.name := "FirebaseError";
     JS.code := Some "unavailable";
     JS.message := "Failed to get document because the client is offline." |}.

(** Collaborators that answer as given; what is not listed succeeds. *)
Definition env (signIn : JS.Error + User.t)
    (verification signingOut lookup : option JS.Error) : Env :=
  {| signInWithRedirect_out := None;
     getRedirectResult_out := inr None;
     signInWithEmailAndPassword_out := fun _ _ => signIn;
     createUserWithEmailAndPassword_out := fun email _ => inr (fresh email);
     updateProfile_out := fun _ _ => None;
     sendEmailVerification_out := fun _ => verification;
     sendPasswordResetEmail_out := fun _ => None;
     deleteUser_out := fun _ => None;
     firebaseSignOut_out := signingOut;
     getDoc_out := fun _ => lookup;
     setDoc_out := fun _ => None;
     updateDoc_out := fun _ => None;
     now := 1700000000000 |}.

Definition calm : Env := env (inr ada) None None None.

Definition invalid_email : JS.Error :=
  {| JS.name := "FirebaseError";
     JS.code := Some "auth/invalid-email";
     JS.message := "Firebase: Error (auth/invalid-email)." |}.

(** A provider that refuses to create the account. *)
Definition refusing : Env :=
  {| signInWithRedirect_out := None;
     getRedirectResult_out := inr None;
     signInWithEmailAndPassword_out := fun _ _ => inl invalid_email;
     createUserWithEmailAndPassword_out := fun _ _ => inl invalid_email;
     updateProfile_out := fun _ _ => None;
     sendEmailVerification_out := fun _ => None;
     sendPasswordResetEmail_out := fun _ => None;
     deleteUser_out := fun _ => None;
     firebaseSignOut_out := None;
     getDoc_out := fun _ => None;
     setDoc_out := fun _ => None;
     updateDoc_out := fun _ => None;
     now := 1700000000000 |}.

Definition start : World := initial ∅ ∅.

End Sample.

(** * The dialogs that drive the coordinator *)

(** ** More of JavaScript: numbers as text *)

Module Num.

(** [String(n)] for an integer [n] (below the range where JavaScript
    switches to exponent notation): decimal digits, a minus sign for a
    negative number. *)
Definition to_String (n : Z) : string :=
  NilEmpty.string_of_int (Z.to_int n).

(** A string is held as the bytes of its UTF-8 encoding, so a character
    above U+007F takes two or three of them.  These are the characters
    that [parseInt] trims ([StrWhiteSpaceChar]: white space and line
    terminators), by the length of their encoding. *)

(** TAB, LF, VT, FF, CR and the space. *)
Definition is_space (c : ascii) : bool :=
  let n := nat_of_ascii c in
  ((n =? 32) || ((9 <=? n) && (n <=? 13)))%nat.

(** The no-break space U+00A0. *)
Definition is_space2 (c1 c2 : ascii) : bool :=
  ((nat_of_ascii c1 =? 194) && (nat_of_ascii c2 =? 160))%nat.

(** U+1680; U+2000 to U+200A, the line and paragraph separators U+2028
    and U+2029, U+202F; U+205F; U+3000; the byte order mark U+FEFF. *)
Definition is_space3 (c1 c2 c3 : ascii) : bool :=
  let n1 := nat_of_ascii c1 in
  let n2 := nat_of_ascii c2 in
  let n3 := nat_of_ascii c3 in
  (((n1 =? 225) && (n2 =? 154) && (n3 =? 128))
   || ((n1 =? 226) && (n2 =? 128)
       && (((128 <=? n3) && (n3 <=? 138))
           || (n3 =? 168) || (n3 =? 169) || (n3 =? 175)))
   || ((n1 =? 226) && (n2 =? 129) && (n3 =? 159))
   || ((n1 =? 227) && (n2 =? 128) && (n3 =? 128))
   || ((n1 =? 239) && (n2 =? 187) && (n3 =? 191)))%nat.

Fixpoint skip_spaces (s : string) : string :=
  match s with
  | String c1 s1 =>
      if is_space c1 then skip_spaces s1
      else
        match s1 with
        | String c2 s2 =>
            if is_space2 c1 c2 then skip_spaces s2
            else
              match s2 with
              | String c3 s3 =>
                  if is_space3 c1 c2 c3 then skip_spaces s3 else s
              | EmptyString => s
              end
        | EmptyString => s
        end
  | EmptyString => s
  end.

Definition digit_value (c : ascii) : option Z :=
  let n := nat_of_ascii c in
  if ((48 <=? n) && (n <=? 57))%nat then Some (Z.of_nat (n - 48)) else None.

(** The value of the longest prefix of decimal digits, none when the
    text does not start with a digit. *)
Fixpoint digits_prefix (acc : option Z) (s : string) : option Z :=
  match s with
  | String c s' =>
      match digit_value c with
      | Some d => digits_prefix (Some (10 * default 0 acc + d)%Z) s'
      | None => acc
      end
  | EmptyString => acc
  end.

(** The number value of an integer: the integer itself up to 2^53, and
    beyond that the nearest integer with 53 significant bits, a tie
    going to the even one.  (An integer of 309 digits or more can have
    the number value [Infinity], which the cells of the dialogs cannot
    hold; here it is rounded like the others.) *)
Definition to_double (z : Z) : Z :=
  let a := Z.abs z in
  if (a <? 2 ^ 53)%Z then z
  else
    let e := (Z.log2 a - 52)%Z in
    let q := Z.shiftr a e in
    let r := (a - Z.shiftl q e)%Z in
    let half := Z.shiftl 1 (e - 1) in
    let q' := if (half <? r)%Z || ((r =? half)%Z && Z.odd q)
              then (q + 1)%Z else q in
    (Z.sgn z * Z.shiftl q' e)%Z.

(** [parseInt(s, 10)]: leading white space is trimmed, a sign is
    accepted, the digits that follow are read and the rest is ignored;
    the result is the number value of the integer read, [None] is
    [NaN].  (Past the twentieth significant digit an engine may read
    zeros instead of the digits; here every digit counts.) *)
Definition parseInt (s : string) : option Z :=
  match skip_spaces s with
  | String c s' =>
      if Ascii.eqb c "-" then
        (fun v => to_double (- v)) <$> digits_prefix None s'
      else if Ascii.eqb c "+" then to_double <$> digits_prefix None s'
      else to_double <$> digits_prefix None (String c s')
  | EmptyString => None
  end.

(** The time values of [Date]: [Date.now()] is an integer of at most
    8.64e15 in magnitude, so it and the end of a cooldown are numbers
    that are held and written exactly. *)
Definition time_value (t : Z) : Prop :=
  (- 8640000000000000 <= t <= 8640000000000000)%Z.

(** [a > b] where [a] may be [NaN]: every comparison with [NaN] is
    false. *)
Definition gt (a : option Z) (b : Z) : bool :=
  match a with
  | Some a => (b <? a)%Z
  | None => false
  end.

Fixpoint repeat_char (c : ascii) (n : nat) : string :=
  match n with
  | O => EmptyString
  | S n' => String c (repeat_char c n')
  end.

(** [s.padStart(n, c)] for a one-character filler. *)
Definition padStart (n : nat) (c : ascii) (s : string) : string :=
  repeat_char c (n - String.length s) +:+ s.

End Num.

(** What the browser answers to [localStorage.setItem(key, value)]:
    nothing when the entry is stored, and otherwise the exception it
    throws (a [QuotaExceededError] when the storage is full or
    disabled). *)
Definition Quota : Type := string -> string -> option JS.Error.

(** [localStorage.setItem(key, value)] *)
Definition setItem (Q : Quota) (key value : string) : Async unit :=
  match Q key value with
  | Some e => throw e
  | None =>
      fun w =>
        (inr tt,
         {| user := user w; loading := loading w;
            localStorage := <[key := value]> (localStorage w);
            users := users w; trace := trace w |})
  end.

(** [localStorage.removeItem(key)] *)
Definition removeItem (key : string) : Async unit :=
  fun w =>
    (inr tt,
     {| user := user w; loading := loading w;
        localStorage := delete key (localStorage w);
        users := users w; trace := trace w |}).

(** ** Event handlers of a component

    A handler runs over the state of its component (the [useState]
    cells and a record of the calls made to the callbacks it received)
    and over the world.  A handler reads the cells as they were when it
    was called and never reads back what it wrote, so the writes can be
    applied in order. *)

Definition Handler (S A : Type) : Type :=
  S -> World -> (JS.Error + A) * (S * World).

Definition hret {S A} (a : A) : Handler S A := fun s w => (inr a, (s, w)).

Definition hbind {S A B} (m : Handler S A) (k : A -> Handler S B)
  : Handler S B :=
  fun s w =>
    match m s w with
    | (inr a, (s', w')) => k a s' w'
    | (inl e, sw) => (inl e, sw)
    end.

(** [try { m } catch (e) { h e } finally { f }] *)
Definition try_catch_finally {S A} (m : Handler S A)
    (h : JS.Error -> Handler S A) (f : Handler S unit) : Handler S A :=
  fun s w =>
    let '(r, (s1, w1)) :=
      match m s w with
      | (inr a, sw) => (inr a, sw)
      | (inl e, (s', w')) => h e s' w'
      end in
    match f s1 w1 with
    | (inr _, sw) => (r, sw)
    | (inl e, sw) => (inl e, sw)
    end.

(** [try { m } catch (e) { h e }] *)
Definition htry_catch {S A} (m : Handler S A) (h : JS.Error -> Handler S A)
  : Handler S A :=
  fun s w =>
    match m s w with
    | (inr a, sw) => (inr a, sw)
    | (inl e, (s', w')) => h e s' w'
    end.

(** [await m], and the synchronous calls into the world. *)
Definition await {S A} (m : Async A) : Handler S A :=
  fun s w => let (r, w') := m w in (r, (s, w')).

(** A [set...] call of a state cell. *)
Definition modify {S} (f : S -> S) : Handler S unit :=
  fun s w => (inr tt, (f s, w)).

Definition reads {S A} (f : S -> A) : Handler S A :=
  fun s w => (inr (f s), (s, w)).

Declare Scope handler_scope.
Delimit Scope handler_scope with handler.
Bind Scope handler_scope with Handler.

Notation "x <- m ;; k" := (hbind m%handler (fun x => k%handler))
  (at level 100, m at next level, right associativity) : handler_scope.
Notation "m ;; k" := (hbind m%handler (fun _ => k%handler))
  (at level 100, right associativity) : handler_scope.

(** ** The sign-in dialog *)

Module AuthDialog.

Record t := mk {
  isLoading : bool;
  signInEmail : string;
  signInPass : string;
  signUpEmail : string;
  signUpPass : string;
  signUpName : string;
  showSignInPass : bool;
  showSignUpPass : bool;
  signInError : option string;
  signUpError : option string;
  resetEmailSent : bool;
  (** the arguments of the calls to the [onOpenChange] callback *)
  onOpenChange_calls : list bool
}.

(** [useState(false)], [useState("")], [useState(null)] *)
Definition initial : t :=
  {| isLoading := false; signInEmail := EmptyString;
     signInPass := EmptyString; signUpEmail := EmptyString;
     signUpPass := EmptyString; signUpName := EmptyString;
     showSignInPass := false; showSignUpPass := false;
     signInError := None; signUpError := None; resetEmailSent := false;
     onOpenChange_calls := [] |}.

Definition setIsLoading (b : bool) : Handler t unit :=
  modify (fun d =>
    {| isLoading := b; signInEmail := signInEmail d;
       signInPass := signInPass d; signUpEmail := signUpEmail d;
       signUpPass := signUpPass d; signUpName := signUpName d;
       showSignInPass := showSignInPass d;
       showSignUpPass := showSignUpPass d;
       signInError := signInError d; signUpError := signUpError d;
       resetEmailSent := resetEmailSent d;
       onOpenChange_calls := onOpenChange_calls d |}).

Definition setSignInEmail (s : string) : Handler t unit :=
  modify (fun d =>
    {| isLoading := isLoading d; signInEmail := s;
       signInPass := signInPass d; signUpEmail := signUpEmail d;
       signUpPass := signUpPass d; signUpName := signUpName d;
       showSignInPass := showSignInPass d;
       showSignUpPass := showSignUpPass d;
       signInError := signInError d; signUpError := signUpError d;
       resetEmailSent := resetEmailSent d;
       onOpenChange_calls := onOpenChange_calls d |}).

Definition setSignInError (e : option string) : Handler t unit :=
  modify (fun d =>
    {| isLoading := isLoading d; signInEmail := signInEmail d;
       signInPass := signInPass d; signUpEmail := signUpEmail d;
       signUpPass := signUpPass d; signUpName := signUpName d;
       showSignInPass := showSignInPass d;
       showSignUpPass := showSignUpPass d;
       signInError := e; signUpError := signUpError d;
       resetEmailSent := resetEmailSent d;
       onOpenChange_calls := onOpenChange_calls d |}).

Definition setSignUpError (e : option string) : Handler t unit :=
  modify (fun d =>
    {| isLoading := isLoading d; signInEmail := signInEmail d;
       signInPass := signInPass d; signUpEmail := signUpEmail d;
       signUpPass := signUpPass d; signUpName := signUpName d;
       showSignInPass := showSignInPass d;
       showSignUpPass := showSignUpPass d;
       signInError := signInError d; signUpError := e;
       resetEmailSent := resetEmailSent d;
       onOpenChange_calls := onOpenChange_calls d |}).

Definition setResetEmailSent (b : bool) : Handler t unit :=
  modify (fun d =>
    {| isLoading := isLoading d; signInEmail := signInEmail d;
       signInPass := signInPass d; signUpEmail := signUpEmail d;
       signUpPass := signUpPass d; signUpName := signUpName d;
       showSignInPass := showSignInPass d;
       showSignUpPass := showSignUpPass d;
       signInError := signInError d; signUpError := signUpError d;
       resetEmailSent := b;
       onOpenChange_calls := onOpenChange_calls d |}).

Definition onOpenChange (b : bool) : Handler t unit :=
  modify (fun d =>
    {| isLoading := isLoading d; signInEmail := signInEmail d;
       signInPass := signInPass d; signUpEmail := signUpEmail d;
       signUpPass := signUpPass d; signUpName := signUpName d;
       showSignInPass := showSignInPass d;
       showSignUpPass := showSignUpPass d;
       signInError := signInError d; signUpError := signUpError d;
       resetEmailSent := resetEmailSent d;
       onOpenChange_calls := onOpenChange_calls d ++ [b] |}).

Section Handlers.

Variable E : Env.
Variable Q : Quota.

(** The effect that runs when [isOpen] changes. *)
Definition openEffect (isOpen : bool) : Handler t unit :=
  if isOpen then
    lastEmail <- await (getItem "lastSignInEmail") ;;
    match lastEmail with
    | Some (String c s) => setSignInEmail (String c s)
    | Some EmptyString | None => hret tt
    end
  else hret tt.

(** Only in the variant of the dialog that offers Google. *)
Definition handleGoogleSignIn : Handler t unit :=
  setIsLoading true ;;
  htry_catch (await (signInWithGoogle E))
    (fun e => setIsLoading false).

Definition handleSignIn : Handler t unit :=
  setIsLoading true ;;
  setSignInError None ;;
  setResetEmailSent false ;;
  try_catch_finally
    (email <- reads signInEmail ;;
     pass <- reads signInPass ;;
     await (signInWithEmail E email pass) ;;
     await (setItem Q "lastSignInEmail" email) ;;
     onOpenChange false)
    (fun e =>
       if JS.strict_eq (JS.code e) "auth/wrong-password"
          || JS.strict_eq (JS.code e) "auth/user-not-found"
          || JS.strict_eq (JS.code e) "auth/invalid-credential"
       then setSignInError (Some "Invalid email or password.")
       else if String.eqb (JS.message e) "Email not verified"
       then setSignInError (Some "Please verify your email before signing in.")
       else setSignInError
              (Some "An unexpected error occurred. Please try again."))
    (setIsLoading false).

(** The notification of a completed sign-up; its display time of 8000 ms
    is not part of [Toast]. *)
Definition check_your_email : Toast :=
  {| variant := Default;
     title := "Check your email!";
     description :=
       Some "A verification link has been sent to your email address to finish account creation." |}.

Definition handleSignUp : Handler t unit :=
  setIsLoading true ;;
  setSignUpError None ;;
  try_catch_finally
    (email <- reads signUpEmail ;;
     pass <- reads signUpPass ;;
     name <- reads signUpName ;;
     await (signUpWithEmail E email pass name) ;;
     await (toast check_your_email) ;;
     onOpenChange false)
    (fun e =>
       if JS.strict_eq (JS.code e) "auth/email-already-in-use"
       then setSignUpError
              (Some "An account with this email already exists. Please sign in or use a different email.")
       else if String.eqb (JS.message e) "Failed to send verification email."
       then setSignUpError
              (Some "Couldn't send verification email. Please try again or use a different email.")
       else setSignUpError
              (Some (JS.or_else (Some (JS.message e))
                       "An unexpected error occurred. Please try again.")))
    (setIsLoading false).

Definition handleForgotPassword : Handler t unit :=
  email <- reads signInEmail ;;
  match email with
  | EmptyString =>
      setSignInError (Some "Please enter your email address first.")
  | String _ _ =>
      setIsLoading true ;;
      setSignInError None ;;
      setResetEmailSent false ;;
      try_catch_finally
        (await (sendPasswordReset E email) ;;
         setResetEmailSent true)
        (fun e => setResetEmailSent true)
        (setIsLoading false)
  end.

Definition handleTabChange : Handler t unit :=
  setSignInError None ;;
  setSignUpError None ;;
  setResetEmailSent false.

End Handlers.

End AuthDialog.

(** ** The settings dialog *)

Module SettingsDialog.

Definition PASSWORD_COOLDOWN_MS : Z := 15 * 60 * 1000.

Record t := mk {
  localApiKey : string;
  showApiKey : bool;
  isApiKeyMissing : bool;
  cooldownEndTime : option Z;
  remainingCooldown : Z;
  isChangingPassword : bool;
  (** the arguments of the calls to the callbacks of the dialog *)
  onApiKeyChange_calls : list (option string);
  onOpenChange_calls : list bool
}.

(** The cells as [useState] creates them for the [apiKey] received. *)
Definition initial (apiKey : option string) : t :=
  {| localApiKey := JS.or_else apiKey EmptyString;
     showApiKey := false; isApiKeyMissing := false;
     cooldownEndTime := None; remainingCooldown := 0;
     isChangingPassword := false;
     onApiKeyChange_calls := []; onOpenChange_calls := [] |}.

Definition setLocalApiKey (s : string) : Handler t unit :=
  modify (fun d =>
    {| localApiKey := s; showApiKey := showApiKey d;
       isApiKeyMissing := isApiKeyMissing d;
       cooldownEndTime := cooldownEndTime d;
       remainingCooldown := remainingCooldown d;
       isChangingPassword := isChangingPassword d;
       onApiKeyChange_calls := onApiKeyChange_calls d;
       onOpenChange_calls := onOpenChange_calls d |}).

Definition setIsApiKeyMissing (b : bool) : Handler t unit :=
  modify (fun d =>
    {| localApiKey := localApiKey d; showApiKey := showApiKey d;
       isApiKeyMissing := b;
       cooldownEndTime := cooldownEndTime d;
       remainingCooldown := remainingCooldown d;
       isChangingPassword := isChangingPassword d;
       onApiKeyChange_calls := onApiKeyChange_calls d;
       onOpenChange_calls := onOpenChange_calls d |}).

Definition setCooldownEndTime (e : option Z) : Handler t unit :=
  modify (fun d =>
    {| localApiKey := localApiKey d; showApiKey := showApiKey d;
       isApiKeyMissing := isApiKeyMissing d;
       cooldownEndTime := e;
       remainingCooldown := remainingCooldown d;
       isChangingPassword := isChangingPassword d;
       onApiKeyChange_calls := onApiKeyChange_calls d;
       onOpenChange_calls := onOpenChange_calls d |}).

Definition setRemainingCooldown (r : Z) : Handler t unit :=
  modify (fun d =>
    {| localApiKey := localApiKey d; showApiKey := showApiKey d;
       isApiKeyMissing := isApiKeyMissing d;
       cooldownEndTime := cooldownEndTime d;
       remainingCooldown := r;
       isChangingPassword := isChangingPassword d;
       onApiKeyChange_calls := onApiKeyChange_calls d;
       onOpenChange_calls := onOpenChange_calls d |}).

Definition setIsChangingPassword (b : bool) : Handler t unit :=
  modify (fun d =>
    {| localApiKey := localApiKey d; showApiKey := showApiKey d;
       isApiKeyMissing := isApiKeyMissing d;
       cooldownEndTime := cooldownEndTime d;
       remainingCooldown := remainingCooldown d;
       isChangingPassword := b;
       onApiKeyChange_calls := onApiKeyChange_calls d;
       onOpenChange_calls := onOpenChange_calls d |}).

Definition onApiKeyChange (k : option string) : Handler t unit :=
  modify (fun d =>
    {| localApiKey := localApiKey d; showApiKey := showApiKey d;
       isApiKeyMissing := isApiKeyMissing d;
       cooldownEndTime := cooldownEndTime d;
       remainingCooldown := remainingCooldown d;
       isChangingPassword := isChangingPassword d;
       onApiKeyChange_calls := onApiKeyChange_calls d ++ [k];
       onOpenChange_calls := onOpenChange_calls d |}).

Definition onOpenChange (b : bool) : Handler t unit :=
  modify (fun d =>
    {| localApiKey := localApiKey d; showApiKey := showApiKey d;
       isApiKeyMissing := isApiKeyMissing d;
       cooldownEndTime := cooldownEndTime d;
       remainingCooldown := remainingCooldown d;
       isChangingPassword := isChangingPassword d;
       onApiKeyChange_calls := onApiKeyChange_calls d;
       onOpenChange_calls := onOpenChange_calls d ++ [b] |}).

(** A number that may be [null] in a condition: [null] and zero are
    falsy. *)
Definition truthy (n : option Z) : option Z :=
  match n with
  | Some 0%Z | None => None
  | Some z => Some z
  end.

Section Handlers.

Variable E : Env.
Variable Q : Quota.

(** The effect that runs when [apiKey] or [isOpen] changes. *)
Definition openEffect (apiKey : option string) : Handler t unit :=
  setLocalApiKey (JS.or_else apiKey EmptyString) ;;
  setIsApiKeyMissing
    (match apiKey with Some (String _ _) => false | _ => true end) ;;
  storedCooldown <- await (getItem "passwordCooldownEnd") ;;
  match storedCooldown with
  | Some (String c s) =>
      let endTime := Num.parseInt (String c s) in
      if Num.gt endTime (now E)
      then setCooldownEndTime endTime
      else await (removeItem "passwordCooldownEnd")
  | Some EmptyString | None => hret tt
  end.

(** The body of the one-second timer, for the end time the effect was
    started with.  The timer itself ([setInterval], [clearInterval]) is
    not represented: it changes neither the cells nor the storage. *)
Definition updateRemaining (cooldownEnd : Z) : Handler t unit :=
  let remaining := Z.max 0 (cooldownEnd - now E) in
  setRemainingCooldown remaining ;;
  if (remaining =? 0)%Z then
    setCooldownEndTime None ;;
    await (removeItem "passwordCooldownEnd")
  else hret tt.

(** The effect that runs when [cooldownEndTime] changes: one update at
    once (the timer then repeats it every second). *)
Definition cooldownEffect : Handler t unit :=
  cooldownEnd <- reads cooldownEndTime ;;
  match truthy cooldownEnd with
  | Some e => updateRemaining e
  | None => hret tt
  end.

Definition settings_saved : Toast :=
  {| variant := Default;
     title := "Settings Saved";
     description := Some "Your preferences have been updated." |}.

Definition api_key_removed : Toast :=
  {| variant := Default;
     title := "API Key Removed";
     description :=
       Some "Your API Key has been removed. The app will not function until a new one is added." |}.

Definition handleSave : Handler t unit :=
  key <- reads localApiKey ;;
  match key with
  | String _ _ =>
      await (setItem Q "googleApiKey" key) ;;
      onApiKeyChange (Some key) ;;
      await (toast settings_saved)
  | EmptyString =>
      await (removeItem "googleApiKey") ;;
      onApiKeyChange None ;;
      await (toast api_key_removed)
  end ;;
  onOpenChange false.

Definition email_sent (email : string) : Toast :=
  {| variant := Default;
     title := "Email Sent";
     description :=
       Some ("A password reset link has been sent to " +:+ email +:+ ".") |}.

(** [user] is the coordinator's, read through [useAuth]. *)
Definition handleChangePassword : Handler t unit :=
  current <- await (fun w => (inr (user w), w)) ;;
  match current with
  | Some u =>
      match User.email u with
      | Some (String c s) =>
          let email := String c s in
          setIsChangingPassword true ;;
          try_catch_finally
            (await (sendPasswordReset E email) ;;
             await (toast (email_sent email)) ;;
             let endTime := (now E + PASSWORD_COOLDOWN_MS)%Z in
             setCooldownEndTime (Some endTime) ;;
             await (setItem Q "passwordCooldownEnd" (Num.to_String endTime)))
            (fun e => hret tt)
            (setIsChangingPassword false)
      | Some EmptyString | None => hret tt
      end
  | None => hret tt
  end.

End Handlers.

Definition formatCooldown (ms : Z) : string :=
  let minutes := (ms / 60000)%Z in
  let seconds := (Z.rem ms 60000 / 1000)%Z in
  Num.padStart 2 "0" (Num.to_String minutes) +:+ ":"
  +:+ Num.padStart 2 "0" (Num.to_String seconds).

End SettingsDialog.

(** ** More derived notions *)

(** The profile written by a sign-up. *)
Definition signUp_profile (E : Env) (u : User.t) (name : string) : Doc.t :=
  {| Doc.uid := User.uid u;
     Doc.displayName := Some name;
     Doc.email := User.email u;
     Doc.photoURL := None;
     Doc.lastLogin := now E;
     Doc.createdAt := now E;
     Doc.cookbook := JSON.Array [];
     Doc.variationBook := JSON.Array [] |}.

(** The local storage is what it was. *)
Definition same_storage (w w' : World) : Prop :=
  localStorage w' = localStorage w.

(** No profile has disappeared. *)
Definition profiles_kept (w w' : World) : Prop :=
  dom (users w) ⊆ dom (users w').

(** The check that a number is shown as exactly two digits that read
    back as the number. *)
Definition two_digits_ok (n : Z) : bool :=
  match Num.padStart 2 "0" (Num.to_String n) with
  | String a (String b EmptyString) =>
      bool_decide (Num.parseInt (String a (String b EmptyString)) = Some n)
  | _ => false
  end.

(** ** More sample collaborators *)

Module Scene.

(** The store refuses every write, and the cleanup of the account fails
    as well. *)
Definition store_down : Env :=
  {| signInWithRedirect_out := None;
     getRedirectResult_out := inr None;
     signInWithEmailAndPassword_out := fun _ _ => inr Sample.ada;
     createUserWithEmailAndPassword_out :=
       fun email _ => inr (Sample.fresh email);
     updateProfile_out := fun _ _ => None;
     sendEmailVerification_out := fun _ => None;
     sendPasswordResetEmail_out := fun _ => None;
     deleteUser_out := fun _ => Some Sample.network_failed;
     firebaseSignOut_out := None;
     getDoc_out := fun _ => None;
     setDoc_out := fun _ => Some Sample.offline;
     updateDoc_out := fun _ => Some Sample.offline;
     now := 1700000000000 |}.

Definition wrong_password : JS.Error :=
  {| JS.name := "FirebaseError";
     JS.code := Some "auth/wrong-password";
     JS.message := "Firebase: Error (auth/wrong-password)." |}.

Definition email_in_use : JS.Error :=
  {| JS.name := "FirebaseError";
     JS.code := Some "auth/email-already-in-use";
     JS.message := "Firebase: Error (auth/email-already-in-use)." |}.

(** The exception of a full storage.  Its [code] is a number in the
    browser, which is equal to no text, as a missing code is. *)
Definition quota_exceeded : JS.Error :=
  {| JS.name := "QuotaExceededError";
     JS.code := None;
     JS.message := "The quota has been exceeded." |}.

(** A storage with room for every entry, and one that is full. *)
Definition roomy : Quota := fun _ _ => None.

Definition full : Quota := fun _ _ => Some quota_exceeded.

(** The sign-in dialog with its fields filled in. *)
Definition form (email pass name : string) : AuthDialog.t :=
  {| AuthDialog.isLoading := false;
     AuthDialog.signInEmail := email; AuthDialog.signInPass := pass;
     AuthDialog.signUpEmail := email; AuthDialog.signUpPass := pass;
     AuthDialog.signUpName := name;
     AuthDialog.showSignInPass := false; AuthDialog.showSignUpPass := false;
     AuthDialog.signInError := None; AuthDialog.signUpError := None;
     AuthDialog.resetEmailSent := false;
     AuthDialog.onOpenChange_calls := [] |}.

(** A world in which Ada is signed in. *)
Definition signed_in : World :=
  {| user := Some Sample.ada; loading := false; localStorage := ∅;
     users := ∅; trace := [] |}.

(** A collaborator that fails to send the reset email, at a given
    time. *)
Definition at_time (t : Z) (reset : option JS.Error) : Env :=
  {| signInWithRedirect_out := None;
     getRedirectResult_out := inr None;
     signInWithEmailAndPassword_out := fun _ _ => inr Sample.ada;
     createUserWithEmailAndPassword_out :=
       fun email _ => inr (Sample.fresh email);
     updateProfile_out := fun _ _ => None;
     sendEmailVerification_out := fun _ => None;
     sendPasswordResetEmail_out := fun _ => reset;
     deleteUser_out := fun _ => None;
     firebaseSignOut_out := None;
     getDoc_out := fun _ => None;
     setDoc_out := fun _ => None;
     updateDoc_out := fun _ => None;
     now := t |}.

End Scene.

(** * Proofs *)

(** ** The parser on small texts *)

Example parse_empty_array : JSON.parse "[]" = inr (JSON.Array []).
Proof. reflexivity. Qed.

Example parse_nested :
  JSON.parse "[1, [true, null], {}, -2.5e3 ]"
  = inr (JSON.Array [JSON.Number "1";
                     JSON.Array [JSON.Bool true; JSON.Null];
                     JSON.Object []; JSON.Number "-2.5e3"]).
Proof. reflexivity. Qed.

Example parse_object :
  let q := String JSON.dquote EmptyString in
  JSON.parse ("{" +:+ q +:+ "id" +:+ q +:+ ": [" +:+ q +:+ "x" +:+ q +:+ "]}")
  = inr (JSON.Object [("id", JSON.Array [JSON.Str "x"])]).
Proof. reflexivity. Qed.

Example parse_unclosed : JSON.parse "[1, 2" = inl JSON.SyntaxError.
Proof. reflexivity. Qed.

Example parse_trailing_comma : JSON.parse "[1,]" = inl JSON.SyntaxError.
Proof. reflexivity. Qed.

Example parse_leading_zero : JSON.parse "01" = inl JSON.SyntaxError.
Proof. reflexivity. Qed.

Example parse_word : JSON.parse "undefined" = inl JSON.SyntaxError.
Proof. reflexivity. Qed.

(** ** Events and traces *)

Lemma log_log w a b : log (log w a) b = log w (a ++ b).
Proof. unfold log; simpl. by rewrite app_assoc. Qed.

Lemma emit_log ev w : emit ev w = (inr tt, log w [ev]).
Proof. reflexivity. Qed.

Lemma call_ok c w : call c None w = (inr tt, log w [Remote c]).
Proof. reflexivity. Qed.

Lemma call_fail c e w : call c (Some e) w = (inl e, log w [Remote c]).
Proof. reflexivity. Qed.

Lemma call_for_ok {A} c (a : A) w : call_for c (inr a) w = (inr a, log w [Remote c]).
Proof. reflexivity. Qed.

Lemma call_for_fail {A} c e w :
  call_for (A := A) c (inl e) w = (inl e, log w [Remote c]).
Proof. reflexivity. Qed.

(** ** Frames: what a computation leaves related *)

Section Frames.

Context (R : relation World) `{!PreOrder R}.

(** [R] admits every change that leaves [user] alone and only adds to
    the trace. *)
Hypothesis R_frame :
  forall w w',
    user w' = user w -> (exists evs, trace w' = (trace w ++ evs)%list) -> R w w'.

Lemma keeps_ret {A} (a : A) : keeps R (ret a).
Proof. intros w. reflexivity. Qed.

Lemma keeps_throw {A} e : keeps R (throw (A := A) e).
Proof. intros w. reflexivity. Qed.

Lemma keeps_lift {A} (r : JS.Error + A) : keeps R (lift r).
Proof. destruct r; [apply keeps_throw | apply keeps_ret]. Qed.

Lemma keeps_bind {A B} (m : Async A) (k : A -> Async B) :
  keeps R m -> (forall a, keeps R (k a)) -> keeps R (bind m k).
Proof.
  intros Hm Hk w. unfold bind. specialize (Hm w).
  destruct (m w) as [[e|a] w1]; simpl in *; [done |].
  etrans; [exact Hm | apply Hk].
Qed.

Lemma keeps_try_catch {A} (m : Async A) (h : JS.Error -> Async A) :
  keeps R m -> (forall e, keeps R (h e)) -> keeps R (try_catch m h).
Proof.
  intros Hm Hh w. unfold try_catch. specialize (Hm w).
  destruct (m w) as [[e|a] w1]; simpl in *; [| done].
  etrans; [exact Hm | apply Hh].
Qed.

Lemma keeps_untouched {A} (m : Async A) :
  (forall w, user (snd (m w)) = user w /\ trace (snd (m w)) = trace w) ->
  keeps R m.
Proof.
  intros H w. destruct (H w) as [Hu Ht].
  apply R_frame; [done |]. exists []. by rewrite app_nil_r.
Qed.

Lemma keeps_emit ev : keeps R (emit ev).
Proof. intros w. apply R_frame; [done |]. by exists [ev]. Qed.

Lemma keeps_setLoading b : keeps R (setLoading b).
Proof. by apply keeps_untouched. Qed.

Lemma keeps_getItem key : keeps R (getItem key).
Proof. by apply keeps_untouched. Qed.

Lemma keeps_call c out : keeps R (call c out).
Proof.
  apply keeps_bind; [apply keeps_emit |].
  intros _. destruct out; [apply keeps_throw | apply keeps_ret].
Qed.

Lemma keeps_call_for {A} c (out : JS.Error + A) : keeps R (call_for c out).
Proof. apply keeps_bind; [apply keeps_emit | intros _; apply keeps_lift]. Qed.

Lemma keeps_getDoc E id : keeps R (getDoc E id).
Proof.
  apply keeps_bind; [apply keeps_call | intros _].
  by apply keeps_untouched.
Qed.

Lemma keeps_setDoc E id d merge : keeps R (setDoc E id d merge).
Proof.
  apply keeps_bind; [apply keeps_call | intros _].
  by apply keeps_untouched.
Qed.

Lemma keeps_updateDoc E id t : keeps R (updateDoc E id t).
Proof.
  apply keeps_bind; [apply keeps_call | intros _].
  apply keeps_untouched. intros w. by destruct (users w !! id).
Qed.

Lemma keeps_readLocal key : keeps R (readLocal key).
Proof.
  apply keeps_bind; [apply keeps_getItem | intros; apply keeps_lift].
Qed.

End Frames.

#[global] Instance same_user_preorder : PreOrder same_user.
Proof.
  split; [by intros w | intros a b c Hab Hbc].
  unfold same_user in *. congruence.
Qed.

#[global] Instance kept_or_cleared_preorder : PreOrder kept_or_cleared.
Proof.
  split; [by left | intros a b c Hab Hbc].
  unfold kept_or_cleared in *.
  destruct Hbc as [Hbc|Hbc]; [rewrite Hbc; exact Hab | by right].
Qed.

#[global] Instance extends_preorder : PreOrder extends.
Proof.
  split.
  - intros w. exists []. by rewrite app_nil_r.
  - intros a b c [x Hx] [y Hy]. exists (x ++ y)%list.
    by rewrite Hy, Hx, app_assoc.
Qed.

Lemma same_user_frame w w' :
  user w' = user w -> (exists evs, trace w' = (trace w ++ evs)%list) -> same_user w w'.
Proof. done. Qed.

Lemma kept_or_cleared_frame w w' :
  user w' = user w -> (exists evs, trace w' = (trace w ++ evs)%list) ->
  kept_or_cleared w w'.
Proof. by left. Qed.

Lemma extends_frame w w' :
  user w' = user w -> (exists evs, trace w' = (trace w ++ evs)%list) -> extends w w'.
Proof. done. Qed.

Lemma keeps_setUser_None : keeps kept_or_cleared (setUser None).
Proof. intros w. by right. Qed.

(** One step of frame reasoning, for a relation with its frame lemma. *)
Ltac frame_with Hf :=
  repeat first
    [ progress intros
    | apply keeps_ret | apply keeps_throw | apply keeps_lift
    | apply (keeps_emit _ Hf) | apply (keeps_setLoading _ Hf)
    | apply (keeps_call _ Hf) | apply (keeps_call_for _ Hf)
    | apply (keeps_getDoc _ Hf) | apply (keeps_setDoc _ Hf)
    | apply (keeps_updateDoc _ Hf) | apply (keeps_readLocal _ Hf)
    | apply keeps_setUser_None
    | apply keeps_bind | apply keeps_try_catch
    | match goal with
      | |- PreOrder _ => apply _
      | |- keeps _ (if ?c then _ else _) => destruct c
      | |- keeps _ (match ?x with _ => _ end) => destruct x
      end ].

Lemma redirectCheck_same_user E : keeps same_user (redirectCheck E).
Proof.
  unfold redirectCheck, getRedirectResult, toast, console_error.
  frame_with same_user_frame.
Qed.

Lemma signInWithGoogle_same_user E : keeps same_user (signInWithGoogle E).
Proof.
  unfold signInWithGoogle, signInWithRedirect, toast, console_error.
  frame_with same_user_frame.
Qed.

Lemma signInWithEmail_same_user E email pass :
  keeps same_user (signInWithEmail E email pass).
Proof.
  unfold signInWithEmail, signInWithEmailAndPassword, firebaseSignOut,
    toast, console_error.
  frame_with same_user_frame.
Qed.

Lemma signUpWithEmail_same_user E email pass name :
  keeps same_user (signUpWithEmail E email pass name).
Proof.
  unfold signUpWithEmail, createUserWithEmailAndPassword, updateProfile,
    sendEmailVerification, firebaseSignOut, deleteUser, toast, console_error.
  frame_with same_user_frame.
Qed.

Lemma sendPasswordReset_same_user E email :
  keeps same_user (sendPasswordReset E email).
Proof.
  unfold sendPasswordReset, sendPasswordResetEmail, console_error.
  frame_with same_user_frame.
Qed.

Lemma signOut_kept_or_cleared E : keeps kept_or_cleared (signOut E).
Proof.
  unfold signOut, firebaseSignOut, toast, console_error.
  frame_with kept_or_cleared_frame.
Qed.

(** ** The subscription handler *)

Lemma bind_assoc {A B C} (m : Async A) (k : A -> Async B) (h : B -> Async C) w :
  bind (bind m k) h w = bind m (fun a => bind (k a) h) w.
Proof. unfold bind. by destruct (m w) as [[e|a] w1]. Qed.

(** What the handler leaves in [user], whatever the store answers. *)
Lemma handleUser_user E currentUser w :
  user (snd (handleUser E currentUser w)) =
  match currentUser with
  | Some u => if User.emailVerified u then Some u else None
  | None => None
  end.
Proof.
  unfold handleUser.
  destruct currentUser as [u|]; [destruct (User.emailVerified u) |];
    try reflexivity.
  rewrite bind_assoc. unfold bind at 1, setUser at 1. cbv beta iota.
  match goal with
  | |- user (snd (?m ?w1)) = _ =>
      assert (Hk : keeps same_user m)
        by (unfold toast, console_error; frame_with same_user_frame);
      exact (Hk w1)
  end.
Qed.

(** An absent or unverified user takes the handler through its second
    branch, which makes no call and cannot fail. *)
Lemma handleUser_signed_out E currentUser w :
  Spec.absent_or_unverified currentUser ->
  handleUser E currentUser w =
  (inr tt,
   {| user := None; loading := false; localStorage := localStorage w;
      users := users w; trace := trace w |}).
Proof.
  intros [-> | (u & -> & Hu)]; unfold handleUser; [| rewrite Hu]; reflexivity.
Qed.

Lemma perform_kept_or_cleared E a w :
  is_notification a = false -> kept_or_cleared w (perform (E, a) w).
Proof.
  destruct a; simpl; try discriminate; intros _.
  - left. apply redirectCheck_same_user.
  - left. apply signInWithGoogle_same_user.
  - left. apply signInWithEmail_same_user.
  - left. apply signUpWithEmail_same_user.
  - left. apply sendPasswordReset_same_user.
  - apply signOut_kept_or_cleared.
Qed.

Lemma perform_all_kept_or_cleared steps w :
  Forall (fun step => is_notification (snd step) = false) steps ->
  kept_or_cleared w (perform_all steps w).
Proof.
  intros H. revert w.
  induction H as [| [E a] steps Ha _ IH]; intros w; simpl; [reflexivity |].
  etrans; [apply perform_kept_or_cleared, Ha | apply IH].
Qed.

(** C1. After a session-change notification that reports no user or a user
    whose email is not verified, [user] is none, and stays none through
    whatever the coordinator does until the next notification; so [user]
    is some [u] only if the most recent notification reported [u] with a
    verified email.  This holds whatever happened before the notification
    and whatever the profile store answers during it. *)
Theorem verification_gate
    (before after : list (Env * Action)) (E : Env)
    (currentUser : option User.t) (w : World) :
  Forall (fun step => is_notification (snd step) = false) after ->
  let w' :=
    perform_all after (perform (E, Notified currentUser) (perform_all before w))
  in
  (Spec.absent_or_unverified currentUser -> user w' = None)
  /\ (forall u, user w' = Some u ->
        currentUser = Some u /\ User.emailVerified u = true).
Proof.
  intros Hafter w'.
  pose proof (perform_all_kept_or_cleared after
                (perform (E, Notified currentUser) (perform_all before w))
                Hafter) as Hk.
  fold w' in Hk. unfold kept_or_cleared in Hk.
  assert (Hn : user (perform (E, Notified currentUser) (perform_all before w)) =
               match currentUser with
               | Some u => if User.emailVerified u then Some u else None
               | None => None
               end) by apply handleUser_user.
  rewrite Hn in Hk. split.
  - intros [-> | (u & -> & Hu)]; [| rewrite Hu in Hk]; by destruct Hk.
  - intros u Hu. rewrite Hu in Hk.
    destruct currentUser as [u0|]; [| by destruct Hk].
    destruct (User.emailVerified u0) eqn:Hv; [| by destruct Hk].
    destruct Hk as [Hk|Hk]; [| done]. by inversion Hk.
Qed.

(** An unverified account is reported, after a verified session and
    before a sign-up and a sign-out. *)
Lemma verification_gate_witness :
  user (perform_all
          [(Sample.calm, SignUpWithEmail "user@gmail.com" "secret1" "Ada");
           (Sample.calm, SignOut)]
          (perform (Sample.calm, Notified (Some (Sample.fresh "user@gmail.com")))
             (perform_all [(Sample.calm, Notified (Some Sample.ada))]
                Sample.start)))
  = None.
Proof.
  apply (verification_gate
           [(Sample.calm, Notified (Some Sample.ada))]
           [(Sample.calm, SignUpWithEmail "user@gmail.com" "secret1" "Ada");
            (Sample.calm, SignOut)]).
  - repeat constructor.
  - right. exists (Sample.fresh "user@gmail.com"). split; reflexivity.
Defined.

(** Unfolding a computation down to its effect on the world. *)
Ltac run_async :=
  cbv beta iota zeta delta
    [handleUser redirectCheck signInWithGoogle signInWithEmail
     signUpWithEmail sendPasswordReset signOut
     signInWithRedirect getRedirectResult signInWithEmailAndPassword
     createUserWithEmailAndPassword updateProfile sendEmailVerification
     sendPasswordResetEmail deleteUser firebaseSignOut
     getDoc setDoc updateDoc readLocal getItem
     bind try_catch ret throw lift call call_for emit
     setUser setLoading put_users toast console_error log];
  cbn [user loading localStorage users trace fst snd negb].

Ltac step :=
  repeat progress
    (cbv beta iota; cbn [user loading localStorage users trace fst snd negb]).

Ltac same_trace := rewrite <- ?app_assoc; reflexivity.

Lemma pending_text_missing w key :
  localStorage w !! key = None -> JSON.parse (pending_text w key) = inr (JSON.Array []).
Proof. unfold pending_text. by intros ->. Qed.

(** The handler on a verified user whose profile exists: only the
    last-login time is written. *)
Lemma handleUser_returning E u w d :
  User.emailVerified u = true ->
  getDoc_out E (User.uid u) = None ->
  users w !! User.uid u = Some d ->
  handleUser E (Some u) w =
  match updateDoc_out E (User.uid u) with
  | None =>
      (inr tt,
       {| user := Some u; loading := false; localStorage := localStorage w;
          users := <[User.uid u := Doc.with_lastLogin d (now E)]> (users w);
          trace := trace w ++ [Remote (C_getDoc (User.uid u));
                               Remote (C_updateDoc (User.uid u) (now E))] |})
  | Some e =>
      (inl e,
       {| user := Some u; loading := loading w; localStorage := localStorage w;
          users := users w;
          trace := trace w ++ [Remote (C_getDoc (User.uid u));
                               Remote (C_updateDoc (User.uid u) (now E))] |})
  end.
Proof.
  intros Hv Hget Hdoc. run_async. rewrite Hv, Hget. step.
  rewrite Hdoc. destruct (updateDoc_out E (User.uid u)); step.
  - do 2 f_equal. same_trace.
  - rewrite Hdoc. do 2 f_equal. same_trace.
Qed.

(** The handler on a verified user whose profile does not exist yet,
    when both local texts parse: the upsert, and its outcome. *)
Lemma handleUser_provisions E u w cookbook variationBook :
  User.emailVerified u = true ->
  getDoc_out E (User.uid u) = None ->
  users w !! User.uid u = None ->
  JSON.parse (pending_text w "cookbookRecipes") = inr cookbook ->
  JSON.parse (pending_text w "variationBook") = inr variationBook ->
  let d := first_profile E u cookbook variationBook in
  let called := [Remote (C_getDoc (User.uid u));
                 Remote (C_setDoc (User.uid u) d true)] in
  handleUser E (Some u) w =
    match setDoc_out E (User.uid u) with
    | None =>
        (inr tt,
         {| user := Some u; loading := false; localStorage := localStorage w;
            users := <[User.uid u := d]> (users w);
            trace := trace w ++ called |})
    | Some e =>
        (inl e,
         {| user := Some u; loading := loading w;
            localStorage := localStorage w; users := users w;
            trace := trace w ++ called |})
    end.
Proof.
  intros Hv Hget Hdoc Hc Hb d called.
  unfold pending_text in Hc, Hb. run_async. rewrite Hv, Hget. step.
  rewrite Hdoc. step. rewrite Hc. step. rewrite Hb. step.
  destruct (setDoc_out E (User.uid u)); step; do 2 f_equal; same_trace.
Qed.

(** C4 (amended). On a first login (verified user, profile looked up and
    absent), each of the two local collections is read as the stored text,
    or as the text of the empty array when nothing is stored; when both
    texts parse, the new profile is upserted, with merge semantics, with
    the two parsed values as its collections, and the handler completes
    if the store accepts the write.  A missing entry yields the empty
    sequence. *)
Theorem first_login_seeds_profile
    (E : Env) (u : User.t) (w : World) (cookbook variationBook : JSON.value) :
  User.emailVerified u = true ->
  getDoc_out E (User.uid u) = None ->
  users w !! User.uid u = None ->
  JSON.parse (pending_text w "cookbookRecipes") = inr cookbook ->
  JSON.parse (pending_text w "variationBook") = inr variationBook ->
  let d := first_profile E u cookbook variationBook in
  let called := [Remote (C_getDoc (User.uid u));
                 Remote (C_setDoc (User.uid u) d true)] in
  handleUser E (Some u) w =
    match setDoc_out E (User.uid u) with
    | None =>
        (inr tt,
         {| user := Some u; loading := false; localStorage := localStorage w;
            users := <[User.uid u := d]> (users w);
            trace := trace w ++ called |})
    | Some e =>
        (inl e,
         {| user := Some u; loading := loading w;
            localStorage := localStorage w; users := users w;
            trace := trace w ++ called |})
    end
  /\ (localStorage w !! "cookbookRecipes" = None -> cookbook = JSON.Array [])
  /\ (localStorage w !! "variationBook" = None -> variationBook = JSON.Array []).
Proof.
  intros Hv Hget Hdoc Hc Hb d called. split; [| split].
  - by apply handleUser_provisions.
  - intros Hm. apply pending_text_missing in Hm. congruence.
  - intros Hm. apply pending_text_missing in Hm. congruence.
Qed.

(** Nothing stored under [cookbookRecipes], two numbers under
    [variationBook]: the profile is seeded with the empty sequence and
    with the stored one. *)
Lemma first_login_seeds_profile_witness :
  let w := initial {[ "variationBook" := "[1, 2]" ]} ∅ in
  handleUser Sample.calm (Some Sample.ada) w =
  (inr tt,
   {| user := Some Sample.ada; loading := false;
      localStorage := localStorage w;
      users :=
        <[ "uid-ada" :=
             first_profile Sample.calm Sample.ada (JSON.Array [])
               (JSON.Array [JSON.Number "1"; JSON.Number "2"]) ]> ∅;
      trace :=
        [Remote (C_getDoc "uid-ada");
         Remote (C_setDoc "uid-ada"
                   (first_profile Sample.calm Sample.ada (JSON.Array [])
                      (JSON.Array [JSON.Number "1"; JSON.Number "2"]))
                   true)] |}).
Proof.
  exact (proj1 (first_login_seeds_profile Sample.calm Sample.ada
                  (initial {[ "variationBook" := "[1, 2]" ]} ∅)
                  (JSON.Array [])
                  (JSON.Array [JSON.Number "1"; JSON.Number "2"])
                  eq_refl eq_refl eq_refl eq_refl eq_refl)).
Defined.

(** C4, as stated, fails: with an unclosed array stored under
    [cookbookRecipes], [JSON.parse] throws, the handler stops with that
    exception, and no profile is written. *)
Lemma malformed_pending_data_aborts_provisioning :
  let w := initial {[ "cookbookRecipes" := "[1, 2" ]} ∅ in
  let w' := snd (handleUser Sample.calm (Some Sample.ada) w) in
  fst (handleUser Sample.calm (Some Sample.ada) w) = inl JSON.SyntaxError
  /\ users w' !! "uid-ada" = None
  /\ trace w' = [Remote (C_getDoc "uid-ada")]
  /\ loading w' = true.
Proof. vm_compute. repeat split. Qed.

(** An empty text counts as nothing stored. *)
Example pending_text_empty :
  pending_text (initial {[ "cookbookRecipes" := EmptyString ]} ∅)
    "cookbookRecipes" = "[]".
Proof. reflexivity. Qed.

(** A stored text that parses is used as parsed, whatever its shape. *)
Example pending_data_not_a_sequence :
  let w := initial {[ "cookbookRecipes" := "42" ]} ∅ in
  Doc.cookbook <$> (users (snd (handleUser Sample.calm (Some Sample.ada) w))
                      !! "uid-ada")
  = Some (JSON.Number "42").
Proof. vm_compute. reflexivity. Qed.

(** ** Resolution of the initial state: proofs *)

Lemma handleUser_settles E currentUser w :
  (forall u, currentUser = Some u -> User.emailVerified u = true ->
             provisioning_succeeds E u w = true) ->
  fst (handleUser E currentUser w) = inr tt
  /\ loading (snd (handleUser E currentUser w)) = false.
Proof.
  intros H.
  destruct currentUser as [u|]; [destruct (User.emailVerified u) eqn:Hv |].
  - specialize (H u eq_refl Hv). unfold provisioning_succeeds in H.
    apply andb_prop in H as [Hget H].
    destruct (getDoc_out E (User.uid u)) eqn:Eget; [discriminate |].
    destruct (users w !! User.uid u) as [d|] eqn:Edoc.
    + rewrite (handleUser_returning E u w d Hv Eget Edoc).
      by destruct (updateDoc_out E (User.uid u)).
    + apply andb_prop in H as [H Hset]. apply andb_prop in H as [Hc Hb].
      unfold parses in Hc, Hb.
      destruct (JSON.parse (pending_text w "cookbookRecipes")) as [|c] eqn:Ec;
        [discriminate |].
      destruct (JSON.parse (pending_text w "variationBook")) as [|b] eqn:Eb;
        [discriminate |].
      rewrite (handleUser_provisions E u w c b Hv Eget Edoc Ec Eb).
      by destruct (setDoc_out E (User.uid u)).
  - rewrite handleUser_signed_out; [done |]. right. by exists u.
  - rewrite handleUser_signed_out; [done |]. by left.
Qed.

(** C8 (amended). [loading] starts true (the state is unresolved).  After
    the first notification is handled, in whatever state it finds the
    coordinator, [loading] is false in the unauthenticated and in the
    unverified branch, and in the authenticated branch whenever the
    profile lookup and the provisioning or last-login update that follows
    go through. *)
Theorem resolved_after_first_notification
    (E : Env) (currentUser : option User.t)
    (ls : gmap string string) (db : gmap string Doc.t) (w : World) :
  (forall u, currentUser = Some u -> User.emailVerified u = true ->
             provisioning_succeeds E u w = true) ->
  loading (initial ls db) = true
  /\ fst (handleUser E currentUser w) = inr tt
  /\ loading (snd (handleUser E currentUser w)) = false.
Proof. intros H. split; [reflexivity | by apply handleUser_settles]. Qed.

(** The authenticated branch, with a store that answers. *)
Lemma resolved_after_first_notification_witness :
  loading Sample.start = true
  /\ fst (handleUser Sample.calm (Some Sample.ada) Sample.start) = inr tt
  /\ loading (snd (handleUser Sample.calm (Some Sample.ada) Sample.start))
     = false.
Proof.
  apply (resolved_after_first_notification Sample.calm (Some Sample.ada) ∅ ∅
           Sample.start).
  intros u Hu _. injection Hu as <-. vm_compute. reflexivity.
Defined.

(** C8, as stated, fails: a verified user is reported while the profile
    store cannot be reached; the lookup throws and [loading] stays true. *)
Lemma unresolved_when_lookup_fails :
  let E := Sample.env (inr Sample.ada) None None (Some Sample.offline) in
  User.emailVerified Sample.ada = true
  /\ fst (handleUser E (Some Sample.ada) Sample.start) = inl Sample.offline
  /\ loading (snd (handleUser E (Some Sample.ada) Sample.start)) = true.
Proof. vm_compute. repeat split. Qed.

(** ** Signing in with a password *)

Lemma deliver_signed_out reports w :
  Forall (fun r => Spec.absent_or_unverified (snd r)) reports ->
  user w = None -> user (deliver reports w) = None.
Proof.
  intros H. revert w.
  induction H as [| [E cu] reports Hr _ IH]; intros w Hw; simpl; [done |].
  apply IH. by rewrite handleUser_signed_out.
Qed.

(** C5 (amended). When the provider accepts the credentials but the
    user's email is not verified, the coordinator calls the provider's
    sign-out and then fails: with [NotVerified] when that sign-out went
    through, with the sign-out's own error when it did not.  Either way
    there is no welcome notification and no last-login update, the
    operation leaves [user] untouched, and [user], none before, is still
    none after the provider's notifications about this unverified
    session. *)
Theorem unverified_sign_in_is_refused
    (E : Env) (email pass : string) (u : User.t) (w : World)
    (reports : list (Env * option User.t)) :
  signInWithEmailAndPassword_out E email pass = inr u ->
  User.emailVerified u = false ->
  Forall (fun r => snd r = Some u \/ snd r = None) reports ->
  let failure :=
    match firebaseSignOut_out E with
    | None => NotVerified
    | Some e => e
    end in
  signInWithEmail E email pass w =
    (inl failure,
     log w [Remote (C_signInWithEmailAndPassword email pass);
            Remote C_firebaseSignOut;
            Logged "Error signing in with email: " failure])
  /\ (user w = None ->
      user (deliver reports (snd (signInWithEmail E email pass w))) = None).
Proof.
  intros Hin Hu Hreports failure.
  assert (Heq : signInWithEmail E email pass w =
    (inl failure,
     log w [Remote (C_signInWithEmailAndPassword email pass);
            Remote C_firebaseSignOut;
            Logged "Error signing in with email: " failure])).
  { subst failure. run_async. rewrite Hin. step. rewrite Hu. step.
    destruct (firebaseSignOut_out E); step; do 2 f_equal; same_trace. }
  split; [exact Heq |].
  intros Hw. rewrite Heq. apply deliver_signed_out; [| exact Hw].
  eapply Forall_impl; [exact Hreports |].
  intros [E' cu] [Hcu | Hcu]; simpl in *; subst cu; [right | left]; eauto.
Qed.

(** The forced sign-out goes through: the caller sees [NotVerified]. *)
Lemma unverified_sign_in_is_refused_witness :
  let E := Sample.env (inr (Sample.fresh "user@gmail.com")) None None None in
  signInWithEmail E "user@gmail.com" "secret1" Sample.start =
    (inl NotVerified,
     log Sample.start
       [Remote (C_signInWithEmailAndPassword "user@gmail.com" "secret1");
        Remote C_firebaseSignOut;
        Logged "Error signing in with email: " NotVerified])
  /\ (user Sample.start = None ->
      user (deliver
              [(E, Some (Sample.fresh "user@gmail.com")); (E, None)]
              (snd (signInWithEmail E "user@gmail.com" "secret1" Sample.start)))
      = None).
Proof.
  apply (unverified_sign_in_is_refused
           (Sample.env (inr (Sample.fresh "user@gmail.com")) None None None)
           "user@gmail.com" "secret1" (Sample.fresh "user@gmail.com")).
  - reflexivity.
  - reflexivity.
  - constructor; [by left | constructor; [by right | constructor]].
Defined.

(** C5, as stated, fails: when the forced sign-out itself fails, the
    caller receives the sign-out's error, not [NotVerified]. *)
Lemma failed_forced_sign_out_masks_NotVerified :
  let E := Sample.env (inr (Sample.fresh "user@gmail.com")) None
             (Some Sample.network_failed) None in
  signInWithEmailAndPassword_out E "user@gmail.com" "secret1"
    = inr (Sample.fresh "user@gmail.com")
  /\ User.emailVerified (Sample.fresh "user@gmail.com") = false
  /\ fst (signInWithEmail E "user@gmail.com" "secret1" Sample.start)
     = inl Sample.network_failed
  /\ Sample.network_failed <> NotVerified.
Proof. vm_compute. repeat split. discriminate. Qed.

(** A verified user is welcomed and the last-login time is written. *)
Example verified_sign_in :
  let w := initial ∅ {[ "uid-ada" :=
                          first_profile Sample.calm Sample.ada
                            (JSON.Array []) (JSON.Array []) ]} in
  signInWithEmail (Sample.env (inr Sample.ada) None None None)
    "user@gmail.com" "secret1" w
  = (inr tt,
     {| user := None; loading := true; localStorage := ∅;
        users := {[ "uid-ada" :=
                      first_profile Sample.calm Sample.ada
                        (JSON.Array []) (JSON.Array []) ]};
        trace := [Remote (C_signInWithEmailAndPassword "user@gmail.com" "secret1");
                  Remote (C_updateDoc "uid-ada" 1700000000000);
                  Toasted {| variant := Default;
                             title := "Welcome back, Ada!";
                             description := None |}] |}).
Proof. vm_compute. reflexivity. Qed.

(** ** Password reset *)

(** C6. [sendPasswordReset] returns normally for every email and every
    answer of the provider; a failure of the provider is logged to the
    console and nothing else happens: no notification, no state change. *)
Theorem sendPasswordReset_never_raises (E : Env) (email : string) (w : World) :
  sendPasswordReset E email w =
  (inr tt,
   log w (Remote (C_sendPasswordResetEmail email) ::
          match sendPasswordResetEmail_out E email with
          | None => []
          | Some e => [Logged "Error sending password reset email: " e]
          end)).
Proof.
  unfold sendPasswordReset, sendPasswordResetEmail, try_catch.
  destruct (sendPasswordResetEmail_out E email) as [e|].
  - rewrite call_fail. unfold console_error.
    by rewrite emit_log, log_log.
  - by rewrite call_ok.
Qed.

(** ** The start-up redirect check *)

(** C7. The redirect check never raises and never touches [user] or
    [loading].  With a result it shows a welcome that names the user, or
    [friend] when the display name is absent (or empty); with no result it
    shows nothing; on a failure it logs the error and shows the generic
    failure notification, unless the error's code is
    [auth/web-storage-unsupported], in which case it shows nothing. *)
Theorem redirect_check_outcomes (E : Env) (w : World) :
  redirectCheck E w =
    (inr tt,
     log w (Remote C_getRedirectResult ::
            match getRedirectResult_out E with
            | inr (Some u) => [Toasted (welcome_back u)]
            | inr None => []
            | inl error =>
                Logged "Error getting redirect result:" error ::
                if JS.strict_eq (JS.code error) "auth/web-storage-unsupported"
                then []
                else [Toasted sign_in_failed]
            end))
  /\ user (snd (redirectCheck E w)) = user w
  /\ loading (snd (redirectCheck E w)) = loading w
  /\ welcome None = "Welcome back, friend!"
  /\ welcome (Some EmptyString) = "Welcome back, friend!"
  /\ (forall c s, welcome (Some (String c s))
                  = "Welcome back, " +:+ String c s +:+ "!").
Proof.
  assert (Heq : redirectCheck E w =
    (inr tt,
     log w (Remote C_getRedirectResult ::
            match getRedirectResult_out E with
            | inr (Some u) => [Toasted (welcome_back u)]
            | inr None => []
            | inl error =>
                Logged "Error getting redirect result:" error ::
                if JS.strict_eq (JS.code error) "auth/web-storage-unsupported"
                then []
                else [Toasted sign_in_failed]
            end))).
  { run_async.
    destruct (getRedirectResult_out E) as [error | [u|]]; step.
    - destruct (JS.strict_eq (JS.code error) "auth/web-storage-unsupported");
        step; do 2 f_equal; same_trace.
    - do 2 f_equal; same_trace.
    - reflexivity. }
  rewrite Heq. repeat split.
Qed.

(** ** Signing out *)

(** X8. When the provider signs out, [signOut] clears [user], shows the
    confirmation notification and returns; nothing else changes. *)
Lemma signOut_success E w :
  firebaseSignOut_out E = None ->
  signOut E w =
  (inr tt,
   {| user := None; loading := loading w; localStorage := localStorage w;
      users := users w;
      trace := trace w ++ [Remote C_firebaseSignOut; Toasted signed_out] |}).
Proof.
  intros H. run_async. rewrite H. step. do 2 f_equal. same_trace.
Qed.

(** C10. When the provider's sign-out fails, [signOut] returns normally,
    leaves [user] (and the rest of the state) as it was, logs the error
    and shows a failure notification that carries the error's message. *)
Theorem signOut_failure_keeps_user (E : Env) (w : World) (e : JS.Error) :
  firebaseSignOut_out E = Some e ->
  signOut E w =
    (inr tt,
     log w [Remote C_firebaseSignOut;
            Logged "Error during sign-out: " e;
            Toasted (sign_out_failed e)])
  /\ user (snd (signOut E w)) = user w.
Proof.
  intros H.
  assert (Heq : signOut E w =
    (inr tt,
     log w [Remote C_firebaseSignOut;
            Logged "Error during sign-out: " e;
            Toasted (sign_out_failed e)])).
  { run_async. rewrite H. step. do 2 f_equal. same_trace. }
  by rewrite Heq.
Qed.

(** A session is open and the network is down. *)
Lemma signOut_failure_keeps_user_witness :
  let E := Sample.env (inr Sample.ada) None (Some Sample.network_failed) None in
  let w := snd (handleUser Sample.calm (Some Sample.ada) Sample.start) in
  user w = Some Sample.ada
  /\ signOut E w =
       (inr tt,
        log w [Remote C_firebaseSignOut;
               Logged "Error during sign-out: " Sample.network_failed;
               Toasted (sign_out_failed Sample.network_failed)])
  /\ user (snd (signOut E w)) = Some Sample.ada.
Proof.
  split; [reflexivity |].
  apply (signOut_failure_keeps_user
           (Sample.env (inr Sample.ada) None (Some Sample.network_failed) None)
           (snd (handleUser Sample.calm (Some Sample.ada) Sample.start))
           Sample.network_failed).
  reflexivity.
Defined.

(** ** Sign-up: the domain check *)

Lemma split_cons sep s : exists x xs, JS.split sep s = x :: xs.
Proof.
  destruct s as [| c s]; simpl; [by eauto |].
  destruct (Ascii.eqb c sep); [by eauto |].
  destruct (JS.split sep s); eauto.
Qed.

(** A text without the separator is its own single segment. *)
Lemma split_without sep s :
  Spec.occurrences sep s = 0 -> JS.split sep s = [s].
Proof.
  induction s as [| c s IH]; simpl; [done |].
  destruct (Ascii.eqb c sep); [done |].
  intros H. by rewrite IH.
Qed.

(** The second segment starts where the domain suffix starts. *)
Lemma split_second email d :
  Spec.domain_suffix email = Some d ->
  JS.split "@" email !! 1 = head (JS.split "@" d).
Proof.
  induction email as [| c s IH]; simpl; [done |].
  destruct (Ascii.eqb c "@").
  - intros [= ->]. by destruct (JS.split "@" d).
  - intros H. specialize (IH H).
    destruct (split_cons "@" s) as (x & xs & Hs).
    rewrite Hs in IH |- *. exact IH.
Qed.

Lemma split_no_suffix email :
  Spec.domain_suffix email = None -> JS.split "@" email !! 1 = None.
Proof.
  intros H. rewrite split_without; [done |].
  induction email as [| c s IH]; simpl in *; [done |].
  destruct (Ascii.eqb c "@"); [done | by apply IH].
Qed.

Lemma occurrences_suffix email d :
  Spec.domain_suffix email = Some d ->
  Spec.occurrences "@" email = S (Spec.occurrences "@" d).
Proof.
  induction email as [| c s IH]; simpl; [done |].
  destruct (Ascii.eqb c "@"); [by intros [= ->] | by apply IH].
Qed.

(** With a suffix free of [@], the code's segment is the suffix. *)
Lemma split_second_plain email d :
  Spec.domain_suffix email = Some d ->
  Spec.occurrences "@" d = 0 ->
  JS.split "@" email !! 1 = Some d.
Proof.
  intros Hd H0. rewrite (split_second _ _ Hd).
  by rewrite split_without.
Qed.

Lemma array_includes_elem xs d :
  JS.array_includes xs (Some d) = true <-> d ∈ xs.
Proof.
  simpl. rewrite existsb_exists, list_elem_of_In. split.
  - intros (x & Hx & Heq). apply String.eqb_eq in Heq. by subst.
  - intros H. exists d. split; [done | apply String.eqb_refl].
Qed.

(** What the first two lines of [signUpWithEmail] decide: a refusal with
    nothing done, or the account-creation call. *)
Lemma signUp_refuses E email pass name w :
  JS.array_includes ALLOWED_DOMAINS (JS.split "@" email !! 1) = false ->
  signUpWithEmail E email pass name w = (inl DomainNotAllowed, w).
Proof. intros H. unfold signUpWithEmail. by rewrite H. Qed.

Lemma signUp_proceeds E email pass name w :
  JS.array_includes ALLOWED_DOMAINS (JS.split "@" email !! 1) = true ->
  exists evs,
    trace (snd (signUpWithEmail E email pass name w)) =
    (trace w ++ Remote (C_createUserWithEmailAndPassword email pass) :: evs)%list.
Proof.
  intros H. unfold signUpWithEmail. rewrite H. cbn [negb].
  unfold bind at 1, createUserWithEmailAndPassword. cbv beta.
  destruct (createUserWithEmailAndPassword_out E email pass) as [e | u].
  - rewrite call_for_fail. by exists [].
  - rewrite call_for_ok. cbv beta iota.
    match goal with
    | |- context [?m (log w ?evs)] =>
        assert (Hk : keeps extends m)
          by (unfold updateProfile, sendEmailVerification, firebaseSignOut,
                deleteUser, console_error;
              frame_with extends_frame);
        destruct (Hk (log w evs)) as [more Hmore]
    end.
    exists more. rewrite Hmore. simpl. by rewrite <- app_assoc.
Qed.

(** The allowlist is written in lower case and without [@]. *)
Lemma allowed_plain a :
  a ∈ ALLOWED_DOMAINS -> Spec.to_lower a = a /\ Spec.occurrences "@" a = 0.
Proof.
  unfold ALLOWED_DOMAINS. rewrite !elem_of_cons, elem_of_nil.
  intros [->|[->|[->|[->|[]]]]]; by split.
Qed.

(** What the check does on every address.  An address without [@] is
    refused.  Otherwise the check reads the domain suffix up to its
    first [@] (or to its end): with that text in the allowlist the
    sign-up goes on to the account-creation call, and without it the
    sign-up is refused with nothing done.  A suffix that is itself in the
    allowlist always passes. *)
Lemma domain_check_every_address
    (E : Env) (email pass name : string) (w : World) :
  match Spec.domain_suffix email with
  | Some d =>
      (d ∈ ALLOWED_DOMAINS ->
       exists evs,
         trace (snd (signUpWithEmail E email pass name w)) =
         (trace w
          ++ Remote (C_createUserWithEmailAndPassword email pass) :: evs)%list)
      /\ (forall seg,
            head (JS.split "@" d) = Some seg ->
            if bool_decide (seg ∈ ALLOWED_DOMAINS)
            then exists evs,
                   trace (snd (signUpWithEmail E email pass name w)) =
                   (trace w
                    ++ Remote (C_createUserWithEmailAndPassword email pass)
                       :: evs)%list
            else signUpWithEmail E email pass name w
                 = (inl DomainNotAllowed, w))
  | None => signUpWithEmail E email pass name w = (inl DomainNotAllowed, w)
  end.
Proof.
  destruct (Spec.domain_suffix email) as [d|] eqn:Hd.
  - pose proof (split_second _ _ Hd) as Hseg. split.
    + intros Hin. apply signUp_proceeds. rewrite Hseg.
      destruct (allowed_plain d Hin) as [_ Hplain].
      rewrite split_without by done. by apply array_includes_elem.
    + intros seg Hhead. rewrite Hhead in Hseg.
      destruct (bool_decide_reflect (seg ∈ ALLOWED_DOMAINS)) as [Hin | Hout].
      * apply signUp_proceeds. rewrite Hseg. by apply array_includes_elem.
      * apply signUp_refuses. rewrite Hseg.
        destruct (JS.array_includes ALLOWED_DOMAINS (Some seg)) eqn:Hinc;
          [| done].
        by apply array_includes_elem in Hinc.
  - apply signUp_refuses. by rewrite split_no_suffix.
Qed.

(** On an address with at most one [@] the text that the check reads is
    the domain suffix: the sign-up is refused with [DomainNotAllowed],
    before any call to the provider or the store, when the email has no
    domain suffix or one that is not in the allowlist, and goes on to the
    provider's account-creation call when the suffix is in the
    allowlist. *)
Lemma domain_check_single_at
    (E : Env) (email pass name : string) (w : World) :
  Spec.occurrences "@" email <= 1 ->
  match Spec.domain_suffix email with
  | Some d =>
      (d ∉ ALLOWED_DOMAINS ->
       signUpWithEmail E email pass name w = (inl DomainNotAllowed, w))
      /\ (d ∈ ALLOWED_DOMAINS ->
          exists evs,
            trace (snd (signUpWithEmail E email pass name w)) =
            (trace w
             ++ Remote (C_createUserWithEmailAndPassword email pass) :: evs)%list)
  | None => signUpWithEmail E email pass name w = (inl DomainNotAllowed, w)
  end.
Proof.
  intros Hone.
  destruct (Spec.domain_suffix email) as [d|] eqn:Hd.
  - assert (Hseg : JS.split "@" email !! 1 = Some d).
    { apply split_second_plain; [done |].
      apply occurrences_suffix in Hd. lia. }
    split; intros Hin.
    + apply signUp_refuses. rewrite Hseg.
      destruct (JS.array_includes ALLOWED_DOMAINS (Some d)) eqn:Hinc; [| done].
      by apply array_includes_elem in Hinc.
    + apply signUp_proceeds. rewrite Hseg. by apply array_includes_elem.
  - apply signUp_refuses. by rewrite split_no_suffix.
Qed.

(** The two sign-up scenarios of the specification, and an address that
    ends in an allowed domain behind a foreign one. *)
Example domain_check_samples :
  signUpWithEmail Sample.calm "user@contoso.io" "secret1" "Ada" Sample.start
    = (inl DomainNotAllowed, Sample.start)
  /\ signUpWithEmail Sample.calm "a@evil.com@gmail.com" "secret1" "Ada"
       Sample.start
     = (inl DomainNotAllowed, Sample.start)
  /\ exists evs,
       trace (snd (signUpWithEmail Sample.calm "user@gmail.com" "secret1" "Ada"
                     Sample.start)) =
       (trace Sample.start
        ++ Remote (C_createUserWithEmailAndPassword "user@gmail.com" "secret1")
           :: evs)%list.
Proof.
  split; [reflexivity | split; [reflexivity |]].
  apply (domain_check_single_at Sample.calm "user@gmail.com" "secret1" "Ada"
           Sample.start); [simpl; lia |].
  unfold ALLOWED_DOMAINS. rewrite !elem_of_cons. by left.
Qed.

(** C3. The code does not refuse every address whose domain is not an
    allowed provider: the check reads the text between the first two
    [@] only.  In [a@gmail.com@evil.com] neither what follows the first
    [@] nor what follows the last is an allowed domain, yet the check
    passes: the account-creation call is made, the caller sees the
    provider's answer in place of [DomainNotAllowed], and with a provider
    that takes the address the sign-up completes. *)
Theorem second_at_passes_the_allowlist :
  let email := "a@gmail.com@evil.com" in
  Spec.domain_suffix email = Some "gmail.com@evil.com"
  /\ ("gmail.com@evil.com" ∉ ALLOWED_DOMAINS)
  /\ Spec.after_last_at email = Some "evil.com"
  /\ ("evil.com" ∉ ALLOWED_DOMAINS)
  /\ signUpWithEmail Sample.refusing email "secret1" "Ada" Sample.start
     = (inl Sample.invalid_email,
        log Sample.start
          [Remote (C_createUserWithEmailAndPassword email "secret1")])
  /\ fst (signUpWithEmail Sample.calm email "secret1" "Ada" Sample.start)
     = inr tt.
Proof.
  repeat split; try reflexivity;
    unfold ALLOWED_DOMAINS; rewrite !elem_of_cons, elem_of_nil;
    intros [H|[H|[H|[H|[]]]]]; discriminate H.
Qed.

(** ** Sign-up: letter case *)

Lemma lower_ascii_at c :
  Ascii.eqb (Spec.lower_ascii c) "@" = Ascii.eqb c "@".
Proof. by destruct c as [[] [] [] [] [] [] [] []]. Qed.

Lemma occurrences_to_lower s :
  Spec.occurrences "@" (Spec.to_lower s) = Spec.occurrences "@" s.
Proof.
  induction s as [| c s IH]; simpl; [done |].
  by rewrite lower_ascii_at, IH.
Qed.

(** C9. The allowlist check is case-sensitive: an email whose domain
    suffix differs from an allowed domain, but only in letter case, is
    refused with [DomainNotAllowed] before any call to the provider. *)
Theorem allowlist_is_case_sensitive
    (E : Env) (email pass name : string) (w : World) (d a : string) :
  Spec.domain_suffix email = Some d ->
  a ∈ ALLOWED_DOMAINS ->
  Spec.to_lower d = Spec.to_lower a ->
  d <> a ->
  signUpWithEmail E email pass name w = (inl DomainNotAllowed, w).
Proof.
  intros Hd Ha Hlow Hne.
  destruct (allowed_plain a Ha) as [Hla Hat]. rewrite Hla in Hlow.
  assert (Hplain : Spec.occurrences "@" d = 0)
    by (by rewrite <- occurrences_to_lower, Hlow).
  apply signUp_refuses. rewrite (split_second_plain _ _ Hd Hplain).
  destruct (JS.array_includes ALLOWED_DOMAINS (Some d)) eqn:Hinc; [| done].
  apply array_includes_elem in Hinc.
  destruct (allowed_plain d Hinc) as [Hld _]. congruence.
Qed.

(** [Gmail.com] is not [gmail.com]. *)
Lemma allowlist_is_case_sensitive_witness :
  signUpWithEmail Sample.calm "user@Gmail.com" "secret1" "Ada" Sample.start
  = (inl DomainNotAllowed, Sample.start).
Proof.
  apply (allowlist_is_case_sensitive Sample.calm "user@Gmail.com" "secret1"
           "Ada" Sample.start "Gmail.com" "gmail.com").
  - reflexivity.
  - unfold ALLOWED_DOMAINS. rewrite !elem_of_cons. by left.
  - reflexivity.
  - discriminate.
Defined.

Example upper_case_domain_refused :
  signUpWithEmail Sample.calm "user@GMAIL.COM" "secret1" "Ada" Sample.start
  = (inl DomainNotAllowed, Sample.start).
Proof. reflexivity. Qed.

(** ** Sign-up: the recovery block *)

(** X6. What the recovery block does with a failure of the guarded block,
    whichever step failed: the failure is logged, the account is deleted
    (a failure of the deletion is only logged), and the caller sees
    [VerificationSendFailed] when [blames_verification] holds of the
    failure, the failure itself otherwise. *)
Lemma signUp_rolls_back E email pass name w u error :
  JS.array_includes ALLOWED_DOMAINS (JS.split "@" email !! 1) = true ->
  createUserWithEmailAndPassword_out E email pass = inr u ->
  block_failure E u name = Some error ->
  let w' := snd (signUpWithEmail E email pass name w) in
  fst (signUpWithEmail E email pass name w) =
    inl (if blames_verification error then VerificationSendFailed else error)
  /\ exists before,
       trace w' =
       (before
        ++ Logged "Error during sign up, attempting to clean up user:" error
        :: Remote (C_deleteUser u)
        :: match deleteUser_out E u with
           | None => []
           | Some e => [Logged "Failed to cleanup user:" e]
           end)%list.
Proof.
  intros Hallowed Hcreate Hblock. unfold block_failure in Hblock.
  run_async. rewrite Hallowed. step. rewrite Hcreate. step.
  destruct (updateProfile_out E u name) as [e1|]; step;
    [injection Hblock as -> |
     destruct (sendEmailVerification_out E u) as [e2|]; step;
       [injection Hblock as -> |
        destruct (setDoc_out E (User.uid u)) as [e3|]; step;
          [injection Hblock as -> | rewrite Hblock; step]]];
    destruct (deleteUser_out E u); step;
    destruct (blames_verification error); step;
    (split; [reflexivity |];
     match goal with
     | |- context [(?before ++ [Logged _ error])%list] => exists before
     end;
     same_trace).
Qed.

(** C2 fails on the code: the verification email is refused for too many
    requests; the account is deleted, but the caller receives the
    provider's error and not [VerificationSendFailed]. *)
Theorem verification_failure_not_recognised :
  let E := Sample.env (inr Sample.ada) (Some Sample.too_many_requests)
             None None in
  let u := Sample.fresh "user@gmail.com" in
  sendEmailVerification_out E u = Some Sample.too_many_requests
  /\ signUpWithEmail E "user@gmail.com" "secret1" "Ada" Sample.start =
       (inl Sample.too_many_requests,
        log Sample.start
          [Remote (C_createUserWithEmailAndPassword "user@gmail.com" "secret1");
           Remote (C_updateProfile u "Ada");
           Remote (C_sendEmailVerification u);
           Logged "Error during sign up, attempting to clean up user:"
                  Sample.too_many_requests;
           Remote (C_deleteUser u)])
  /\ Sample.too_many_requests <> VerificationSendFailed.
Proof. repeat split. discriminate. Qed.

(** A network failure of the same step is recognised. *)
Example network_failure_recognised :
  fst (signUpWithEmail
         (Sample.env (inr Sample.ada) (Some Sample.network_failed) None None)
         "user@gmail.com" "secret1" "Ada" Sample.start)
  = inl VerificationSendFailed.
Proof. reflexivity. Qed.

(** The first sign-up scenario of the specification. *)
Example sign_up_scenario :
  let u := Sample.fresh "user@gmail.com" in
  let d := {| Doc.uid := "uid-new"; Doc.displayName := Some "Ada";
              Doc.email := Some "user@gmail.com"; Doc.photoURL := None;
              Doc.lastLogin := 1700000000000; Doc.createdAt := 1700000000000;
              Doc.cookbook := JSON.Array [];
              Doc.variationBook := JSON.Array [] |} in
  signUpWithEmail Sample.calm "user@gmail.com" "secret1" "Ada" Sample.start =
  (inr tt,
   {| user := None; loading := true; localStorage := ∅;
      users := {[ "uid-new" := d ]};
      trace :=
        [Remote (C_createUserWithEmailAndPassword "user@gmail.com" "secret1");
         Remote (C_updateProfile u "Ada");
         Remote (C_sendEmailVerification u);
         Remote (C_setDoc "uid-new" d false);
         Remote C_firebaseSignOut] |}).
Proof. vm_compute. reflexivity. Qed.

(** * More of the coordinator *)

(** ** Signing in *)

(** X1. [signInWithGoogle] never raises and leaves [user] alone.  When the
    redirect is initiated, [loading] stays set (the page is about to be
    left); when the initiation fails, the error is logged, a failure
    notification carries its message and [loading] is cleared. *)
Theorem signInWithGoogle_outcomes (E : Env) (w : World) :
  signInWithGoogle E w =
  (inr tt,
   match signInWithRedirect_out E with
   | None =>
       {| user := user w; loading := true; localStorage := localStorage w;
          users := users w;
          trace := trace w ++ [Remote C_signInWithRedirect] |}
   | Some e =>
       {| user := user w; loading := false; localStorage := localStorage w;
          users := users w;
          trace := trace w ++
                   [Remote C_signInWithRedirect;
                    Logged "Error during sign-in redirect: " e;
                    Toasted {| variant := Destructive;
                               title := "Sign-In Failed";
                               description := Some (JS.message e) |}] |}
   end).
Proof.
  run_async. destruct (signInWithRedirect_out E); step; do 2 f_equal.
  same_trace.
Qed.

(** X2. A failure of the provider's credential check reaches the caller
    of [signInWithEmail] unchanged; it is logged, and nothing else
    happens: no sign-out, no profile update, no notification. *)
Theorem signInWithEmail_provider_failure
    (E : Env) (email pass : string) (w : World) (e : JS.Error) :
  signInWithEmailAndPassword_out E email pass = inl e ->
  signInWithEmail E email pass w =
  (inl e,
   log w [Remote (C_signInWithEmailAndPassword email pass);
          Logged "Error signing in with email: " e]).
Proof.
  intros H. run_async. rewrite H. step. do 2 f_equal. same_trace.
Qed.

Lemma signInWithEmail_provider_failure_witness :
  signInWithEmail (Sample.env (inl Sample.network_failed) None None None)
    "user@gmail.com" "secret1" Sample.start =
  (inl Sample.network_failed,
   log Sample.start
     [Remote (C_signInWithEmailAndPassword "user@gmail.com" "secret1");
      Logged "Error signing in with email: " Sample.network_failed]).
Proof.
  apply (signInWithEmail_provider_failure
           (Sample.env (inl Sample.network_failed) None None None)).
  reflexivity.
Defined.

(** X3. When the provider accepts the credentials of a verified user
    whose profile exists, [signInWithEmail] makes no sign-out call and
    asks the store to write the last-login time.  When the store accepts,
    only that field of the profile changes, the welcome notification is
    shown and the call returns; when the store refuses, its error is
    logged and reaches the caller, and no welcome is shown.  [user] and
    [loading] are left to the subscription handler. *)
Theorem signInWithEmail_verified
    (E : Env) (email pass : string) (w : World) (u : User.t) (d : Doc.t) :
  signInWithEmailAndPassword_out E email pass = inr u ->
  User.emailVerified u = true ->
  users w !! User.uid u = Some d ->
  signInWithEmail E email pass w =
  match updateDoc_out E (User.uid u) with
  | None =>
      (inr tt,
       {| user := user w; loading := loading w;
          localStorage := localStorage w;
          users := <[User.uid u := Doc.with_lastLogin d (now E)]> (users w);
          trace := trace w ++
                   [Remote (C_signInWithEmailAndPassword email pass);
                    Remote (C_updateDoc (User.uid u) (now E));
                    Toasted {| variant := Default;
                               title := welcome (User.displayName u);
                               description := None |}] |})
  | Some e =>
      (inl e,
       log w [Remote (C_signInWithEmailAndPassword email pass);
              Remote (C_updateDoc (User.uid u) (now E));
              Logged "Error signing in with email: " e])
  end.
Proof.
  intros Hin Hv Hd. run_async. rewrite Hin. step. rewrite Hv. step.
  destruct (updateDoc_out E (User.uid u)); step.
  - do 2 f_equal. same_trace.
  - rewrite Hd. step. do 2 f_equal. same_trace.
Qed.

Lemma signInWithEmail_verified_witness :
  let d := first_profile Sample.calm Sample.ada (JSON.Array []) (JSON.Array []) in
  let w := initial ∅ {[ "uid-ada" := d ]} in
  signInWithEmail Sample.calm "user@gmail.com" "secret1" w =
  (inr tt,
   {| user := None; loading := true; localStorage := ∅;
      users := <[ "uid-ada" := Doc.with_lastLogin d 1700000000000 ]> (users w);
      trace := [Remote (C_signInWithEmailAndPassword "user@gmail.com" "secret1");
                Remote (C_updateDoc "uid-ada" 1700000000000);
                Toasted {| variant := Default;
                           title := welcome (Some "Ada");
                           description := None |}] |}).
Proof.
  exact (signInWithEmail_verified Sample.calm "user@gmail.com" "secret1"
           (initial ∅ {[ "uid-ada" :=
              first_profile Sample.calm Sample.ada (JSON.Array [])
                (JSON.Array []) ]})
           Sample.ada
           (first_profile Sample.calm Sample.ada (JSON.Array []) (JSON.Array []))
           eq_refl eq_refl eq_refl).
Defined.

(** ** Signing up *)

(** X4. When the provider refuses to create the account, [signUpWithEmail]
    passes the provider's error on unchanged and does nothing more: no
    cleanup is attempted, nothing is logged and nothing is written. *)
Theorem signUp_creation_failure
    (E : Env) (email pass name : string) (w : World) (e : JS.Error) :
  JS.array_includes ALLOWED_DOMAINS (JS.split "@" email !! 1) = true ->
  createUserWithEmailAndPassword_out E email pass = inl e ->
  signUpWithEmail E email pass name w =
  (inl e, log w [Remote (C_createUserWithEmailAndPassword email pass)]).
Proof.
  intros Hallowed Hcreate. run_async. rewrite Hallowed. step.
  by rewrite Hcreate.
Qed.

Lemma signUp_creation_failure_witness :
  signUpWithEmail Sample.refusing "user@gmail.com" "secret1" "Ada" Sample.start =
  (inl Sample.invalid_email,
   log Sample.start
     [Remote (C_createUserWithEmailAndPassword "user@gmail.com" "secret1")]).
Proof.
  apply (signUp_creation_failure Sample.refusing "user@gmail.com"); reflexivity.
Defined.


(** X5. When every step goes through, [signUpWithEmail] sets the display
    name, sends the verification email, stores a profile with the given
    name, no avatar and two empty collections, signs the new account
    out, in this order, and returns; [user] and [loading] are not
    touched, so the new account is never shown as signed in. *)
Theorem signUp_success
    (E : Env) (email pass name : string) (w : World) (u : User.t) :
  JS.array_includes ALLOWED_DOMAINS (JS.split "@" email !! 1) = true ->
  createUserWithEmailAndPassword_out E email pass = inr u ->
  block_failure E u name = None ->
  signUpWithEmail E email pass name w =
  (inr tt,
   {| user := user w; loading := loading w; localStorage := localStorage w;
      users := <[User.uid u := signUp_profile E u name]> (users w);
      trace := trace w ++
               [Remote (C_createUserWithEmailAndPassword email pass);
                Remote (C_updateProfile u name);
                Remote (C_sendEmailVerification u);
                Remote (C_setDoc (User.uid u) (signUp_profile E u name) false);
                Remote C_firebaseSignOut] |}).
Proof.
  intros Hallowed Hcreate Hblock. unfold block_failure in Hblock.
  run_async. rewrite Hallowed. step. rewrite Hcreate. step.
  destruct (updateProfile_out E u name); [discriminate |]. step.
  destruct (sendEmailVerification_out E u); [discriminate |]. step.
  destruct (setDoc_out E (User.uid u)); [discriminate |]. step.
  rewrite Hblock. step. do 2 f_equal. same_trace.
Qed.

Lemma signUp_success_witness :
  signUpWithEmail Sample.calm "user@gmail.com" "secret1" "Ada" Sample.start =
  (inr tt,
   {| user := None; loading := true; localStorage := ∅;
      users := <[ "uid-new" :=
                  signUp_profile Sample.calm (Sample.fresh "user@gmail.com")
                    "Ada" ]> ∅;
      trace :=
        [Remote (C_createUserWithEmailAndPassword "user@gmail.com" "secret1");
         Remote (C_updateProfile (Sample.fresh "user@gmail.com") "Ada");
         Remote (C_sendEmailVerification (Sample.fresh "user@gmail.com"));
         Remote (C_setDoc "uid-new"
                   (signUp_profile Sample.calm (Sample.fresh "user@gmail.com")
                      "Ada") false);
         Remote C_firebaseSignOut] |}).
Proof.
  exact (signUp_success Sample.calm "user@gmail.com" "secret1" "Ada"
           Sample.start (Sample.fresh "user@gmail.com")
           eq_refl eq_refl eq_refl).
Defined.

(** X7. The recovery block of [signUpWithEmail] deletes the account and
    nothing else: when the sign-out that ends the guarded block fails,
    the profile written just before stays in the store although its
    account is deleted. *)
Theorem signUp_rollback_leaves_profile
    (E : Env) (email pass name : string) (w : World) (u : User.t)
    (error : JS.Error) :
  JS.array_includes ALLOWED_DOMAINS (JS.split "@" email !! 1) = true ->
  createUserWithEmailAndPassword_out E email pass = inr u ->
  updateProfile_out E u name = None ->
  sendEmailVerification_out E u = None ->
  setDoc_out E (User.uid u) = None ->
  firebaseSignOut_out E = Some error ->
  let w' := snd (signUpWithEmail E email pass name w) in
  users w' !! User.uid u = Some (signUp_profile E u name)
  /\ Remote (C_deleteUser u) ∈ trace w'
  /\ fst (signUpWithEmail E email pass name w) =
     inl (if blames_verification error then VerificationSendFailed else error).
Proof.
  intros Hallowed Hcreate Hp Hv Hs Ho.
  run_async. rewrite Hallowed. step. rewrite Hcreate. step.
  rewrite Hp. step. rewrite Hv. step. rewrite Hs. step. rewrite Ho. step.
  destruct (deleteUser_out E u); step;
    destruct (blames_verification error); step;
    (split; [apply lookup_insert_eq |]);
    (split; [| reflexivity]);
    rewrite !elem_of_app, !elem_of_cons; tauto.
Qed.

Lemma signUp_rollback_leaves_profile_witness :
  let E := Sample.env (inr Sample.ada) None (Some Sample.network_failed)
             None in
  let u := Sample.fresh "user@gmail.com" in
  let w' := snd (signUpWithEmail E "user@gmail.com" "secret1" "Ada"
                   Sample.start) in
  users w' !! "uid-new" = Some (signUp_profile E u "Ada")
  /\ Remote (C_deleteUser u) ∈ trace w'
  /\ fst (signUpWithEmail E "user@gmail.com" "secret1" "Ada" Sample.start) =
     inl VerificationSendFailed.
Proof.
  exact (signUp_rollback_leaves_profile
           (Sample.env (inr Sample.ada) None (Some Sample.network_failed)
              None)
           "user@gmail.com" "secret1" "Ada" Sample.start
           (Sample.fresh "user@gmail.com") Sample.network_failed
           eq_refl eq_refl eq_refl eq_refl eq_refl eq_refl).
Defined.

(** The store refuses the profile of a new account. *)
Lemma signUp_rolls_back_witness :
  let u := Sample.fresh "user@gmail.com" in
  fst (signUpWithEmail Scene.store_down "user@gmail.com" "secret1" "Ada"
         Sample.start) = inl Sample.offline
  /\ exists before,
       trace (snd (signUpWithEmail Scene.store_down "user@gmail.com" "secret1"
                     "Ada" Sample.start)) =
       (before
        ++ [Logged "Error during sign up, attempting to clean up user:"
                   Sample.offline;
            Remote (C_deleteUser u);
            Logged "Failed to cleanup user:" Sample.network_failed])%list.
Proof.
  exact (signUp_rolls_back Scene.store_down "user@gmail.com" "secret1" "Ada"
           Sample.start (Sample.fresh "user@gmail.com") Sample.offline
           eq_refl eq_refl eq_refl).
Defined.

(** ** Signing out *)

Lemma signOut_success_witness :
  let w := snd (handleUser Sample.calm (Some Sample.ada) Sample.start) in
  user w = Some Sample.ada
  /\ signOut Sample.calm w =
     (inr tt,
      {| user := None; loading := loading w; localStorage := localStorage w;
         users := users w;
         trace := trace w ++ [Remote C_firebaseSignOut; Toasted signed_out] |}).
Proof.
  split; [reflexivity |].
  apply (signOut_success Sample.calm). reflexivity.
Defined.

(** ** Returning users *)

(** X9. For a verified user whose profile exists, the handler reads no
    local data and writes nothing but the last-login time: the two
    collections, the creation time and every other profile are as they
    were, whatever the local storage holds. *)
Theorem returning_user_keeps_collections
    (E : Env) (u : User.t) (w : World) (d : Doc.t) :
  User.emailVerified u = true ->
  getDoc_out E (User.uid u) = None ->
  updateDoc_out E (User.uid u) = None ->
  users w !! User.uid u = Some d ->
  let w' := snd (handleUser E (Some u) w) in
  fst (handleUser E (Some u) w) = inr tt
  /\ loading w' = false
  /\ localStorage w' = localStorage w
  /\ (exists d', users w' !! User.uid u = Some d'
                /\ Doc.lastLogin d' = now E
                /\ Doc.createdAt d' = Doc.createdAt d
                /\ Doc.cookbook d' = Doc.cookbook d
                /\ Doc.variationBook d' = Doc.variationBook d)
  /\ (forall other, other <> User.uid u ->
                    users w' !! other = users w !! other).
Proof.
  intros Hv Hget Hupd Hd w'. subst w'.
  rewrite (handleUser_returning E u w d Hv Hget Hd), Hupd. simpl.
  repeat split.
  - exists (Doc.with_lastLogin d (now E)). by rewrite lookup_insert_eq.
  - intros other Hne. by rewrite lookup_insert_ne.
Qed.

(** The stored text under [cookbookRecipes] does not parse; the user has
    a profile with one saved recipe. *)
Lemma returning_user_keeps_collections_witness :
  let d := first_profile Sample.calm Sample.ada
             (JSON.Array [JSON.Str "soup"]) (JSON.Array []) in
  let w := initial {[ "cookbookRecipes" := "[1, 2" ]} {[ "uid-ada" := d ]} in
  let w' := snd (handleUser Sample.calm (Some Sample.ada) w) in
  fst (handleUser Sample.calm (Some Sample.ada) w) = inr tt
  /\ loading w' = false
  /\ Doc.cookbook <$> users w' !! "uid-ada"
     = Some (JSON.Array [JSON.Str "soup"]).
Proof.
  destruct (returning_user_keeps_collections Sample.calm Sample.ada
              (initial {[ "cookbookRecipes" := "[1, 2" ]}
                 {[ "uid-ada" :=
                    first_profile Sample.calm Sample.ada
                      (JSON.Array [JSON.Str "soup"]) (JSON.Array []) ]})
              (first_profile Sample.calm Sample.ada
                 (JSON.Array [JSON.Str "soup"]) (JSON.Array [])))
    as (Hr & Hl & _ & (d' & Hd' & _ & _ & Hc & _) & _);
    [reflexivity | reflexivity | reflexivity | by vm_compute |].
  split; [exact Hr | split; [exact Hl |]].
  cbn [User.uid Sample.ada] in Hd'. rewrite Hd'. simpl. by rewrite Hc.
Defined.

(** X10. Provisioning is idempotent in sequence: when the same verified
    user is reported twice and the store answers both times, the second
    pass finds the profile of the first and only moves its last-login
    time.  The collections and the creation time are those of the first
    pass, and the profile is written in full only once. *)
Theorem provisioning_twice
    (E1 E2 : Env) (u : User.t) (w : World) (cookbook variationBook : JSON.value) :
  User.emailVerified u = true ->
  users w !! User.uid u = None ->
  JSON.parse (pending_text w "cookbookRecipes") = inr cookbook ->
  JSON.parse (pending_text w "variationBook") = inr variationBook ->
  getDoc_out E1 (User.uid u) = None -> setDoc_out E1 (User.uid u) = None ->
  getDoc_out E2 (User.uid u) = None -> updateDoc_out E2 (User.uid u) = None ->
  let d := first_profile E1 u cookbook variationBook in
  let w1 := snd (handleUser E1 (Some u) w) in
  handleUser E2 (Some u) w1 =
  (inr tt,
   {| user := Some u; loading := false; localStorage := localStorage w;
      users := <[User.uid u := Doc.with_lastLogin d (now E2)]> (users w);
      trace := trace w ++
               [Remote (C_getDoc (User.uid u));
                Remote (C_setDoc (User.uid u) d true);
                Remote (C_getDoc (User.uid u));
                Remote (C_updateDoc (User.uid u) (now E2))] |}).
Proof.
  intros Hv Hnone Hc Hb Hg1 Hs1 Hg2 Hu2 d w1. subst w1.
  rewrite (handleUser_provisions E1 u w cookbook variationBook
             Hv Hg1 Hnone Hc Hb), Hs1.
  cbn [snd].
  rewrite (handleUser_returning E2 u _ d Hv Hg2); [| apply lookup_insert_eq].
  rewrite Hu2. cbn [user loading localStorage users trace].
  f_equal. f_equal; [by rewrite insert_insert_eq | same_trace].
Qed.

Lemma provisioning_twice_witness :
  let d := first_profile Sample.calm Sample.ada (JSON.Array [])
             (JSON.Array [JSON.Number "1"; JSON.Number "2"]) in
  let w := initial {[ "variationBook" := "[1, 2]" ]} ∅ in
  handleUser Sample.calm (Some Sample.ada)
    (snd (handleUser Sample.calm (Some Sample.ada) w)) =
  (inr tt,
   {| user := Some Sample.ada; loading := false;
      localStorage := localStorage w;
      users := <[ "uid-ada" := Doc.with_lastLogin d 1700000000000 ]> ∅;
      trace := [Remote (C_getDoc "uid-ada");
                Remote (C_setDoc "uid-ada" d true);
                Remote (C_getDoc "uid-ada");
                Remote (C_updateDoc "uid-ada" 1700000000000)] |}).
Proof.
  exact (provisioning_twice Sample.calm Sample.calm Sample.ada
           (initial {[ "variationBook" := "[1, 2]" ]} ∅)
           (JSON.Array []) (JSON.Array [JSON.Number "1"; JSON.Number "2"])
           eq_refl eq_refl eq_refl eq_refl eq_refl eq_refl eq_refl eq_refl).
Defined.

(** ** What no operation does *)

#[global] Instance same_storage_preorder : PreOrder same_storage.
Proof.
  split; [by intros w | intros a b c Hab Hbc].
  unfold same_storage in *. congruence.
Qed.

#[global] Instance profiles_kept_preorder : PreOrder profiles_kept.
Proof.
  split; [intros w | intros a b c Hab Hbc];
    unfold profiles_kept in *; set_solver.
Qed.

(** Frame reasoning for a relation stated on the end points of a
    primitive: the structure is taken apart, [leaf] closes the
    primitives. *)
Ltac frame_by leaf :=
  repeat first
    [ progress intros
    | apply keeps_ret | apply keeps_throw | apply keeps_lift
    | apply keeps_bind | apply keeps_try_catch
    | match goal with
      | |- PreOrder _ => apply _
      | |- keeps _ (if ?c then _ else _) => destruct c
      | |- keeps _ (match ?x with _ => _ end) => destruct x
      end
    | solve [unfold keeps; intros ?w; leaf] ].

Ltac unfold_operations :=
  unfold handleUser, redirectCheck, signInWithGoogle, signInWithEmail,
    signUpWithEmail, sendPasswordReset, signOut,
    signInWithRedirect, getRedirectResult, signInWithEmailAndPassword,
    createUserWithEmailAndPassword, updateProfile, sendEmailVerification,
    sendPasswordResetEmail, deleteUser, firebaseSignOut,
    getDoc, setDoc, updateDoc, readLocal, call, call_for,
    toast, console_error.

Ltac storage_leaf :=
  first [ reflexivity
        | match goal with
          | |- context [users ?w !! ?id] =>
              destruct (users w !! id); reflexivity
          end ].

Ltac profiles_leaf :=
  unfold profiles_kept; cbn;
  first [ done
        | rewrite dom_insert; set_solver
        | match goal with
          | |- context [users ?w !! ?id] =>
              destruct (users w !! id); cbn;
              [rewrite dom_insert; set_solver | done]
          end ].

Lemma perform_same_storage step w : same_storage w (perform step w).
Proof.
  destruct step as [E a]. unfold perform.
  destruct a;
    match goal with
    | |- same_storage _ (snd (?m w)) =>
        assert (Hk : keeps same_storage m)
          by (unfold_operations; frame_by ltac:(storage_leaf));
        exact (Hk w)
    end.
Qed.

Lemma perform_profiles_kept step w : profiles_kept w (perform step w).
Proof.
  destruct step as [E a]. unfold perform.
  destruct a;
    match goal with
    | |- profiles_kept _ (snd (?m w)) =>
        assert (Hk : keeps profiles_kept m)
          by (unfold_operations; frame_by ltac:(profiles_leaf));
        exact (Hk w)
    end.
Qed.

(** X11. Through any run of notifications and operations, the coordinator
    never writes the local storage: the data cached before login is read
    on the first login and is left in place. *)
Theorem local_storage_never_written
    (steps : list (Env * Action)) (w : World) :
  localStorage (perform_all steps w) = localStorage w.
Proof.
  revert w. induction steps as [| step steps IH]; intros w; [done |].
  simpl. rewrite IH. apply perform_same_storage.
Qed.

(** X12. Through any run of notifications and operations, no profile
    document disappears from the store: the coordinator creates and
    updates profiles and never deletes one, also when a sign-up is rolled
    back. *)
Theorem profiles_never_deleted
    (steps : list (Env * Action)) (w : World) (id : string) :
  is_Some (users w !! id) ->
  is_Some (users (perform_all steps w) !! id).
Proof.
  rewrite <- !elem_of_dom. revert w.
  induction steps as [| step steps IH]; intros w Hin; [done |].
  simpl. apply IH. by apply perform_profiles_kept.
Qed.

Lemma profiles_never_deleted_witness :
  let d := first_profile Sample.calm Sample.ada (JSON.Array []) (JSON.Array []) in
  is_Some
    (users (perform_all
              [(Scene.store_down, SignUpWithEmail "user@gmail.com" "secret1" "Ada");
               (Sample.calm, Notified (Some Sample.ada));
               (Sample.calm, SignOut)]
              (initial ∅ {[ "uid-ada" := d ]}))
       !! "uid-ada").
Proof.
  apply (profiles_never_deleted
           [(Scene.store_down, SignUpWithEmail "user@gmail.com" "secret1" "Ada");
            (Sample.calm, Notified (Some Sample.ada));
            (Sample.calm, SignOut)]).
  eexists. reflexivity.
Defined.

(** * The sign-in dialog *)

(** Unfolding a handler down to its effect on the dialog and the
    world, the coordinator's operations left folded. *)
Ltac run_handler :=
  cbv beta iota zeta delta
    [AuthDialog.openEffect AuthDialog.handleGoogleSignIn
     AuthDialog.handleSignIn AuthDialog.handleSignUp
     AuthDialog.handleForgotPassword AuthDialog.handleTabChange
     AuthDialog.setIsLoading AuthDialog.setSignInEmail
     AuthDialog.setSignInError AuthDialog.setSignUpError
     AuthDialog.setResetEmailSent AuthDialog.onOpenChange
     SettingsDialog.openEffect SettingsDialog.updateRemaining
     SettingsDialog.cooldownEffect SettingsDialog.handleSave
     SettingsDialog.handleChangePassword
     SettingsDialog.setLocalApiKey SettingsDialog.setIsApiKeyMissing
     SettingsDialog.setCooldownEndTime SettingsDialog.setRemainingCooldown
     SettingsDialog.setIsChangingPassword SettingsDialog.onApiKeyChange
     SettingsDialog.onOpenChange
     hbind hret try_catch_finally htry_catch await modify reads
     setItem removeItem getItem toast emit].

Ltac hstep :=
  repeat progress
    (cbv beta iota zeta;
     cbn [fst snd user loading localStorage users trace
          AuthDialog.isLoading AuthDialog.signInEmail AuthDialog.signInPass
          AuthDialog.signUpEmail AuthDialog.signUpPass AuthDialog.signUpName
          AuthDialog.showSignInPass AuthDialog.showSignUpPass
          AuthDialog.signInError AuthDialog.signUpError
          AuthDialog.resetEmailSent AuthDialog.onOpenChange_calls
          SettingsDialog.localApiKey SettingsDialog.showApiKey
          SettingsDialog.isApiKeyMissing SettingsDialog.cooldownEndTime
          SettingsDialog.remainingCooldown SettingsDialog.isChangingPassword
          SettingsDialog.onApiKeyChange_calls
          SettingsDialog.onOpenChange_calls]).

(** X13. Whatever the coordinator, the provider and the storage do,
    [handleSignIn] returns normally with [isLoading] cleared.  It asks to
    close the dialog exactly when the sign-in succeeded and the storage
    took the email under [lastSignInEmail].  After a failed sign-in, and
    also after a sign-in that succeeded but whose email the storage
    refused, the dialog stays open with an error text and the storage is
    as the coordinator left it. *)
Theorem handleSignIn_outcomes
    (E : Env) (Q : Quota) (d : AuthDialog.t) (w : World) :
  let c := signInWithEmail E (AuthDialog.signInEmail d)
             (AuthDialog.signInPass d) w in
  let r := AuthDialog.handleSignIn E Q d w in
  let d' := fst (snd r) in
  fst r = inr tt
  /\ AuthDialog.isLoading d' = false
  /\ AuthDialog.resetEmailSent d' = false
  /\ match fst c, Q "lastSignInEmail" (AuthDialog.signInEmail d) with
     | inr _, None =>
         AuthDialog.signInError d' = None
         /\ AuthDialog.onOpenChange_calls d' =
            (AuthDialog.onOpenChange_calls d ++ [false])%list
         /\ localStorage (snd (snd r)) =
            <["lastSignInEmail" := AuthDialog.signInEmail d]>
              (localStorage (snd c))
     | inr _, Some _ | inl _, _ =>
         is_Some (AuthDialog.signInError d')
         /\ AuthDialog.onOpenChange_calls d' = AuthDialog.onOpenChange_calls d
         /\ snd (snd r) = snd c
     end.
Proof.
  run_handler. hstep.
  destruct (signInWithEmail E (AuthDialog.signInEmail d)
              (AuthDialog.signInPass d) w) as [[e | []] w1]; hstep.
  - destruct (JS.strict_eq (JS.code e) "auth/wrong-password"
              || JS.strict_eq (JS.code e) "auth/user-not-found"
              || JS.strict_eq (JS.code e) "auth/invalid-credential");
      [| destruct (String.eqb (JS.message e) "Email not verified")];
      hstep; repeat split; eauto.
  - destruct (Q "lastSignInEmail" (AuthDialog.signInEmail d)) as [e |];
      unfold throw; hstep; [| repeat split].
    destruct (JS.strict_eq (JS.code e) "auth/wrong-password"
              || JS.strict_eq (JS.code e) "auth/user-not-found"
              || JS.strict_eq (JS.code e) "auth/invalid-credential");
      [| destruct (String.eqb (JS.message e) "Email not verified")];
      hstep; repeat split; eauto.
Qed.

(** Ada signs in while the storage is full: she is signed in, and the
    dialog stays open and reports an error. *)
Example handleSignIn_storage_full :
  let w := initial ∅ {[ "uid-ada" :=
             first_profile Sample.calm Sample.ada (JSON.Array [])
               (JSON.Array []) ]} in
  let r := AuthDialog.handleSignIn Sample.calm Scene.full
             (Scene.form "user@gmail.com" "secret1" "Ada") w in
  fst r = inr tt
  /\ AuthDialog.signInError (fst (snd r))
     = Some "An unexpected error occurred. Please try again."
  /\ AuthDialog.onOpenChange_calls (fst (snd r)) = []
  /\ localStorage (snd (snd r)) = ∅.
Proof. by vm_compute. Qed.

(** X14. The coordinator's [NotVerified] failure is the one the dialog
    recognises: an unverified sign-in is answered with the text that asks
    to verify the email. *)
Theorem handleSignIn_not_verified
    (E : Env) (Q : Quota) (d : AuthDialog.t) (w : World) :
  fst (signInWithEmail E (AuthDialog.signInEmail d)
         (AuthDialog.signInPass d) w) = inl NotVerified ->
  AuthDialog.signInError (fst (snd (AuthDialog.handleSignIn E Q d w)))
  = Some "Please verify your email before signing in.".
Proof.
  run_handler. hstep.
  destruct (signInWithEmail E (AuthDialog.signInEmail d)
              (AuthDialog.signInPass d) w) as [[e | []] w1]; hstep;
    [| discriminate].
  by intros [= ->].
Qed.

Lemma handleSignIn_not_verified_witness :
  AuthDialog.signInError
    (fst (snd (AuthDialog.handleSignIn
                 (Sample.env (inr (Sample.fresh "user@gmail.com")) None None None)
                 Scene.roomy
                 (Scene.form "user@gmail.com" "secret1" "Ada") Sample.start)))
  = Some "Please verify your email before signing in.".
Proof.
  apply (handleSignIn_not_verified
           (Sample.env (inr (Sample.fresh "user@gmail.com")) None None None)
           Scene.roomy
           (Scene.form "user@gmail.com" "secret1" "Ada") Sample.start).
  reflexivity.
Defined.

(** X15. A wrong password, an unknown account and an invalid credential
    are answered with one and the same text, so the dialog does not tell
    whether the account exists. *)
Theorem handleSignIn_bad_credentials
    (E : Env) (Q : Quota) (d : AuthDialog.t) (w : World) (e : JS.Error) :
  fst (signInWithEmail E (AuthDialog.signInEmail d)
         (AuthDialog.signInPass d) w) = inl e ->
  JS.code e = Some "auth/wrong-password"
  \/ JS.code e = Some "auth/user-not-found"
  \/ JS.code e = Some "auth/invalid-credential" ->
  AuthDialog.signInError (fst (snd (AuthDialog.handleSignIn E Q d w)))
  = Some "Invalid email or password.".
Proof.
  run_handler. hstep.
  destruct (signInWithEmail E (AuthDialog.signInEmail d)
              (AuthDialog.signInPass d) w) as [[e' | []] w1]; hstep;
    [| discriminate].
  intros [= ->] [-> | [-> | ->]]; reflexivity.
Qed.

Lemma handleSignIn_bad_credentials_witness :
  AuthDialog.signInError
    (fst (snd (AuthDialog.handleSignIn
                 (Sample.env (inl Scene.wrong_password) None None None)
                 Scene.roomy
                 (Scene.form "user@gmail.com" "secret1" "Ada") Sample.start)))
  = Some "Invalid email or password.".
Proof.
  apply (handleSignIn_bad_credentials
           (Sample.env (inl Scene.wrong_password) None None None)
           Scene.roomy
           (Scene.form "user@gmail.com" "secret1" "Ada") Sample.start
           Scene.wrong_password).
  - reflexivity.
  - by left.
Defined.

(** X16. The email of a successful sign-in that the storage took is
    offered again: when the dialog is opened next, the effect fills the
    sign-in field with it. *)
Theorem last_email_is_offered_again
    (E : Env) (Q : Quota) (d d' : AuthDialog.t) (w : World) :
  fst (signInWithEmail E (AuthDialog.signInEmail d)
         (AuthDialog.signInPass d) w) = inr tt ->
  Q "lastSignInEmail" (AuthDialog.signInEmail d) = None ->
  AuthDialog.signInEmail d <> EmptyString ->
  let w' := snd (snd (AuthDialog.handleSignIn E Q d w)) in
  AuthDialog.signInEmail (fst (snd (AuthDialog.openEffect true d' w')))
  = AuthDialog.signInEmail d.
Proof.
  run_handler. hstep.
  destruct (signInWithEmail E (AuthDialog.signInEmail d)
              (AuthDialog.signInPass d) w) as [[e | []] w1]; hstep;
    [discriminate |].
  intros _ -> Hne. hstep. rewrite lookup_insert_eq.
  destruct (AuthDialog.signInEmail d); [done |]. reflexivity.
Qed.

Lemma last_email_is_offered_again_witness :
  let d := Scene.form "user@gmail.com" "secret1" "Ada" in
  let w := initial ∅ {[ "uid-ada" :=
             first_profile Sample.calm Sample.ada (JSON.Array [])
               (JSON.Array []) ]} in
  AuthDialog.signInEmail
    (fst (snd (AuthDialog.openEffect true AuthDialog.initial
                 (snd (snd (AuthDialog.handleSignIn Sample.calm Scene.roomy
                              d w))))))
  = "user@gmail.com".
Proof.
  apply (last_email_is_offered_again Sample.calm Scene.roomy
           (Scene.form "user@gmail.com" "secret1" "Ada") AuthDialog.initial).
  - by vm_compute.
  - reflexivity.
  - discriminate.
Defined.

(** X17. Whatever the coordinator and the provider do, [handleSignUp]
    returns normally with [isLoading] cleared.  It shows the notification
    that asks to check the inbox and asks to close the dialog exactly
    when the sign-up succeeded; after a failure it shows an error text
    and no notification, and the dialog stays open. *)
Theorem handleSignUp_outcomes
    (E : Env) (d : AuthDialog.t) (w : World) :
  let c := signUpWithEmail E (AuthDialog.signUpEmail d)
             (AuthDialog.signUpPass d) (AuthDialog.signUpName d) w in
  let r := AuthDialog.handleSignUp E d w in
  let d' := fst (snd r) in
  fst r = inr tt
  /\ AuthDialog.isLoading d' = false
  /\ match fst c with
     | inr _ =>
         AuthDialog.signUpError d' = None
         /\ AuthDialog.onOpenChange_calls d' =
            (AuthDialog.onOpenChange_calls d ++ [false])%list
         /\ snd (snd r) = log (snd c) [Toasted AuthDialog.check_your_email]
     | inl _ =>
         is_Some (AuthDialog.signUpError d')
         /\ AuthDialog.onOpenChange_calls d' = AuthDialog.onOpenChange_calls d
         /\ snd (snd r) = snd c
     end.
Proof.
  run_handler. hstep.
  destruct (signUpWithEmail E (AuthDialog.signUpEmail d)
              (AuthDialog.signUpPass d) (AuthDialog.signUpName d) w)
    as [[e | []] w1]; hstep.
  - destruct (JS.strict_eq (JS.code e) "auth/email-already-in-use");
      [| destruct (String.eqb (JS.message e)
                     "Failed to send verification email.")];
      hstep; repeat split; eauto.
  - repeat split.
Qed.

(** X18. An email outside the allowlist is refused in the dialog without
    any call to the provider or the store: the world is untouched and the
    error text names the accepted providers. *)
Theorem handleSignUp_domain_refused
    (E : Env) (d : AuthDialog.t) (w : World) :
  JS.array_includes ALLOWED_DOMAINS
    (JS.split "@" (AuthDialog.signUpEmail d) !! 1) = false ->
  let r := AuthDialog.handleSignUp E d w in
  fst r = inr tt
  /\ snd (snd r) = w
  /\ AuthDialog.signUpError (fst (snd r)) =
     Some "Please use a valid email provider (Gmail, Yahoo, Outlook, or Microsoft)."
  /\ AuthDialog.isLoading (fst (snd r)) = false
  /\ AuthDialog.onOpenChange_calls (fst (snd r)) = AuthDialog.onOpenChange_calls d.
Proof.
  intros H. run_handler. hstep.
  rewrite (signUp_refuses E _ (AuthDialog.signUpPass d)
             (AuthDialog.signUpName d) w H).
  hstep. repeat split.
Qed.

Lemma handleSignUp_domain_refused_witness :
  let r := AuthDialog.handleSignUp Sample.calm
             (Scene.form "user@contoso.io" "secret1" "Ada") Sample.start in
  fst r = inr tt
  /\ snd (snd r) = Sample.start
  /\ AuthDialog.signUpError (fst (snd r)) =
     Some "Please use a valid email provider (Gmail, Yahoo, Outlook, or Microsoft)."
  /\ AuthDialog.isLoading (fst (snd r)) = false
  /\ AuthDialog.onOpenChange_calls (fst (snd r)) = [].
Proof.
  apply (handleSignUp_domain_refused Sample.calm
           (Scene.form "user@contoso.io" "secret1" "Ada") Sample.start).
  reflexivity.
Defined.

(** X19. The coordinator's [VerificationSendFailed] failure is the one
    the sign-up form recognises; an address that is already registered is
    told so. *)
Theorem handleSignUp_known_failures
    (E : Env) (d : AuthDialog.t) (w : World) (e : JS.Error) :
  fst (signUpWithEmail E (AuthDialog.signUpEmail d)
         (AuthDialog.signUpPass d) (AuthDialog.signUpName d) w) = inl e ->
  e = VerificationSendFailed
  \/ JS.code e = Some "auth/email-already-in-use" ->
  AuthDialog.signUpError (fst (snd (AuthDialog.handleSignUp E d w))) =
  Some (if JS.strict_eq (JS.code e) "auth/email-already-in-use"
        then "An account with this email already exists. Please sign in or use a different email."
        else "Couldn't send verification email. Please try again or use a different email.").
Proof.
  run_handler. hstep.
  destruct (signUpWithEmail E (AuthDialog.signUpEmail d)
              (AuthDialog.signUpPass d) (AuthDialog.signUpName d) w)
    as [[e' | []] w1]; hstep; [| discriminate].
  intros [= ->] [-> | Hc]; [reflexivity |].
  unfold JS.strict_eq. rewrite Hc. reflexivity.
Qed.

(** The verification email cannot be sent for lack of network. *)
Lemma handleSignUp_known_failures_witness :
  AuthDialog.signUpError
    (fst (snd (AuthDialog.handleSignUp
                 (Sample.env (inr Sample.ada) (Some Sample.network_failed)
                    None None)
                 (Scene.form "user@gmail.com" "secret1" "Ada") Sample.start)))
  = Some "Couldn't send verification email. Please try again or use a different email.".
Proof.
  apply (handleSignUp_known_failures
           (Sample.env (inr Sample.ada) (Some Sample.network_failed) None None)
           (Scene.form "user@gmail.com" "secret1" "Ada") Sample.start
           VerificationSendFailed).
  - reflexivity.
  - by left.
Defined.

(** X20. With no email typed in, [handleForgotPassword] asks for one and
    calls nothing.  With an email it returns normally, shows the
    confirmation panel and clears [isLoading] whatever the provider
    answers: the dialog does not tell whether the account exists. *)
Theorem handleForgotPassword_outcomes
    (E : Env) (d : AuthDialog.t) (w : World) :
  let r := AuthDialog.handleForgotPassword E d w in
  let d' := fst (snd r) in
  fst r = inr tt
  /\ match AuthDialog.signInEmail d with
     | EmptyString =>
         snd (snd r) = w
         /\ AuthDialog.signInError d' =
            Some "Please enter your email address first."
         /\ AuthDialog.resetEmailSent d' = AuthDialog.resetEmailSent d
         /\ AuthDialog.isLoading d' = AuthDialog.isLoading d
     | String c s =>
         snd (snd r) = snd (sendPasswordReset E (String c s) w)
         /\ AuthDialog.signInError d' = None
         /\ AuthDialog.resetEmailSent d' = true
         /\ AuthDialog.isLoading d' = false
     end.
Proof.
  run_handler. hstep.
  destruct (AuthDialog.signInEmail d) as [| c s]; hstep; [repeat split |].
  destruct (sendPasswordReset E (String c s) w) as [[e | []] w1]; hstep;
    repeat split.
Qed.

Lemma signInWithGoogle_returns E w : fst (signInWithGoogle E w) = inr tt.
Proof. run_async. by destruct (signInWithRedirect_out E). Qed.

(** X21. After [handleGoogleSignIn] the dialog's [isLoading] is set,
    whatever the provider answers: [signInWithGoogle] handles a failed
    redirect itself and does not raise, so the clause of the dialog that
    would clear the flag is never entered. *)
Theorem handleGoogleSignIn_keeps_loading
    (E : Env) (d : AuthDialog.t) (w : World) :
  let r := AuthDialog.handleGoogleSignIn E d w in
  fst r = inr tt
  /\ AuthDialog.isLoading (fst (snd r)) = true
  /\ snd (snd r) = snd (signInWithGoogle E w).
Proof.
  pose proof (signInWithGoogle_returns E w) as H.
  run_handler. hstep.
  destruct (signInWithGoogle E w) as [[e | []] w1]; [discriminate |].
  hstep. repeat split.
Qed.

(** * The settings dialog *)

(** ** Numbers written and read back *)

(** Nothing is trimmed in front of a character of one byte that is not
    white space. *)
Lemma skip_spaces_plain c s :
  Num.is_space c = false ->
  (nat_of_ascii c <? 128)%nat = true ->
  Num.skip_spaces (String c s) = String c s.
Proof.
  intros Hc Hn. apply Nat.ltb_lt in Hn. cbn [Num.skip_spaces]. rewrite Hc.
  assert (H2 : forall c2, Num.is_space2 c c2 = false).
  { intros c2. unfold Num.is_space2.
    destruct (Nat.eqb_spec (nat_of_ascii c) 194); [lia | done]. }
  assert (H3 : forall c2 c3, Num.is_space3 c c2 c3 = false).
  { intros c2 c3. unfold Num.is_space3.
    destruct (Nat.eqb_spec (nat_of_ascii c) 225); [lia |].
    destruct (Nat.eqb_spec (nat_of_ascii c) 226); [lia |].
    destruct (Nat.eqb_spec (nat_of_ascii c) 227); [lia |].
    destruct (Nat.eqb_spec (nat_of_ascii c) 239); [lia | done]. }
  destruct s as [| c2 [| c3 s3]]; [done | by rewrite H2 |].
  by rewrite H2, H3.
Qed.

(** An integer of at most 53 bits is its own number value. *)
Lemma to_double_exact z : (Z.abs z < 2 ^ 53)%Z -> Num.to_double z = z.
Proof.
  intros Hz. unfold Num.to_double.
  by destruct (Z.ltb_spec (Z.abs z) (2 ^ 53)); [| lia].
Qed.

Lemma digits_prefix_acc d acc :
  Num.digits_prefix (Some (Z.pos acc)) (NilEmpty.string_of_uint d)
  = Some (Z.pos (Pos.of_uint_acc d acc)).
Proof.
  revert acc. induction d; intros acc; simpl; [done | ..];
    rewrite <- IHd; do 2 f_equal; lia.
Qed.

Lemma digits_prefix_zeros d :
  Num.digits_prefix (Some 0%Z) (NilEmpty.string_of_uint d)
  = Some (Z.of_N (Pos.of_uint d)).
Proof.
  induction d; simpl; [done | exact IHd | ..];
    exact (digits_prefix_acc d _).
Qed.

Lemma digits_prefix_uint d :
  d <> Decimal.Nil ->
  Num.digits_prefix None (NilEmpty.string_of_uint d)
  = Some (Z.of_N (Pos.of_uint d)).
Proof.
  destruct d; intros Hd; simpl; [done | apply digits_prefix_zeros | ..];
    exact (digits_prefix_acc d _).
Qed.

Lemma parseInt_uint d :
  d <> Decimal.Nil ->
  Num.parseInt (NilEmpty.string_of_uint d)
  = Some (Num.to_double (Z.of_N (Pos.of_uint d))).
Proof.
  intros Hd. pose proof (digits_prefix_uint d Hd) as H.
  unfold Num.parseInt.
  destruct d; [done | ..]; cbn [NilEmpty.string_of_uint] in *;
    rewrite skip_spaces_plain by reflexivity;
    simpl (Ascii.eqb _ _); cbv iota; by rewrite H.
Qed.

(** What [String] writes, [parseInt] reads back. *)
Lemma parseInt_to_String z :
  (Z.abs z < 2 ^ 53)%Z -> Num.parseInt (Num.to_String z) = Some z.
Proof.
  intros Hz. destruct z as [| p | p]; [reflexivity | |].
  - unfold Num.to_String. cbn [Z.to_int NilEmpty.string_of_int].
    rewrite parseInt_uint by apply DecimalPos.Unsigned.to_uint_nonnil.
    rewrite DecimalPos.Unsigned.of_to. by rewrite to_double_exact.
  - unfold Num.to_String, Num.parseInt.
    cbn [Z.to_int NilEmpty.string_of_int].
    rewrite skip_spaces_plain by reflexivity.
    cbn [Ascii.eqb Bool.eqb].
    rewrite digits_prefix_uint by apply DecimalPos.Unsigned.to_uint_nonnil.
    rewrite DecimalPos.Unsigned.of_to. cbn [fmap option_fmap option_map].
    by rewrite to_double_exact.
Qed.

(** A no-break space in front of the digits is trimmed, and a number of
    more than 53 bits is read as the nearest number value. *)
Example parseInt_samples :
  Num.parseInt (String (ascii_of_nat 194) (String (ascii_of_nat 160) "1700"))
  = Some 1700%Z
  /\ Num.parseInt "  -12px" = Some (-12)%Z
  /\ Num.parseInt "9007199254740993" = Some 9007199254740992%Z
  /\ Num.parseInt "9007199254740995" = Some 9007199254740996%Z
  /\ Num.parseInt "soon" = None.
Proof. by vm_compute. Qed.

Lemma to_String_nonempty z : exists c s, Num.to_String z = String c s.
Proof.
  destruct z as [| p | p]; [by eexists _, _ | | by eexists _, _].
  unfold Num.to_String. simpl.
  pose proof (DecimalPos.Unsigned.to_uint_nonnil p) as Hn.
  destruct (Pos.to_uint p); [done | by eexists _, _ ..].
Qed.

(** Below one hundred, padding gives exactly two digits that read back
    as the number. *)
Lemma two_digits n :
  (0 <= n < 100)%Z ->
  exists a b,
    Num.padStart 2 "0" (Num.to_String n) = String a (String b EmptyString)
    /\ Num.parseInt (String a (String b EmptyString)) = Some n.
Proof.
  intros Hn.
  assert (Hall : forallb two_digits_ok (seqZ 0 100) = true) by by vm_compute.
  rewrite forallb_forall in Hall.
  specialize (Hall n). unfold two_digits_ok in Hall.
  destruct (Num.padStart 2 "0" (Num.to_String n))
    as [| a [| b [| ? ?]]];
    try (exfalso; apply Bool.diff_false_true, Hall,
           list_elem_of_In, elem_of_seqZ; lia).
  exists a, b. split; [done |].
  eapply bool_decide_eq_true_1, Hall, list_elem_of_In, elem_of_seqZ. lia.
Qed.

(** ** The cooldown of the password change *)

(** X22. [formatCooldown] shows a time below one hundred minutes as two
    digits, a colon and two digits; the two numbers read back as the
    whole minutes and the seconds below sixty that make up the whole
    seconds of the time. *)
Theorem formatCooldown_shape (ms : Z) :
  (0 <= ms < 6000000)%Z ->
  let text := SettingsDialog.formatCooldown ms in
  String.length text = 5
  /\ String.get 2 text = Some ":"%char
  /\ exists m s,
       Num.parseInt (String.substring 0 2 text) = Some m
       /\ Num.parseInt (String.substring 3 2 text) = Some s
       /\ (0 <= s < 60)%Z
       /\ (60 * m + s = ms / 1000)%Z.
Proof.
  intros Hms text. subst text. unfold SettingsDialog.formatCooldown.
  rewrite Z.rem_mod_nonneg by lia.
  set (m := (ms / 60000)%Z). set (s := (ms mod 60000 / 1000)%Z).
  assert (Hm : (0 <= m < 100)%Z).
  { subst m. split; [apply Z.div_pos; lia |].
    apply Z.div_lt_upper_bound; lia. }
  assert (Hs : (0 <= s < 60)%Z).
  { subst s. pose proof (Z.mod_pos_bound ms 60000 ltac:(lia)).
    split; [apply Z.div_pos; lia | apply Z.div_lt_upper_bound; lia]. }
  destruct (two_digits m Hm) as (a & b & -> & Hab).
  destruct (two_digits s ltac:(lia)) as (a' & b' & -> & Hab').
  simpl. repeat split.
  exists m, s. repeat split; try done; try lia.
  subst m s.
  pose proof (Z.div_mod ms 60000 ltac:(lia)).
  pose proof (Z.div_mod (ms mod 60000) 1000 ltac:(lia)).
  pose proof (Z.mod_pos_bound ms 60000 ltac:(lia)).
  pose proof (Z.mod_pos_bound (ms mod 60000) 1000 ltac:(lia)).
  apply Z.div_unique with (r := ((ms mod 60000) mod 1000)%Z); lia.
Qed.

(** A quarter of an hour less one and a half seconds. *)
Lemma formatCooldown_shape_witness :
  let text := SettingsDialog.formatCooldown 898500 in
  String.length text = 5
  /\ String.get 2 text = Some ":"%char
  /\ exists m s,
       Num.parseInt (String.substring 0 2 text) = Some m
       /\ Num.parseInt (String.substring 3 2 text) = Some s
       /\ (0 <= s < 60)%Z
       /\ (60 * m + s = 898500 / 1000)%Z.
Proof. apply (formatCooldown_shape 898500). lia. Defined.

Example formatCooldown_sample :
  SettingsDialog.formatCooldown 898500 = "14:58".
Proof. reflexivity. Qed.

Lemma sendPasswordReset_returns E email w :
  fst (sendPasswordReset E email w) = inr tt.
Proof. run_async. by destruct (sendPasswordResetEmail_out E email). Qed.

(** X23. For a signed-in user with an email, [handleChangePassword]
    returns normally, announces that the email was sent and starts the
    cooldown of a quarter of an hour in the dialog, whatever the provider
    answered to the reset request.  The end of the cooldown is written
    to the local storage when the storage takes it; when it does not,
    the failure is swallowed and the storage stays as it was. *)
Theorem handleChangePassword_starts_cooldown
    (E : Env) (Q : Quota) (d : SettingsDialog.t) (w : World) (u : User.t)
    (c : ascii) (s : string) :
  user w = Some u ->
  User.email u = Some (String c s) ->
  Num.time_value (now E) ->
  let email := String c s in
  let cooldownEnd := (now E + 900000)%Z in
  let w1 := snd (sendPasswordReset E email w) in
  let r := SettingsDialog.handleChangePassword E Q d w in
  fst r = inr tt
  /\ SettingsDialog.cooldownEndTime (fst (snd r)) = Some cooldownEnd
  /\ SettingsDialog.isChangingPassword (fst (snd r)) = false
  /\ snd (snd r) =
     {| user := user w1; loading := loading w1;
        localStorage :=
          match Q "passwordCooldownEnd" (Num.to_String cooldownEnd) with
          | None =>
              <["passwordCooldownEnd" := Num.to_String cooldownEnd]>
                (localStorage w1)
          | Some _ => localStorage w1
          end;
        users := users w1;
        trace := trace w1 ++ [Toasted (SettingsDialog.email_sent email)] |}.
Proof.
  intros Hu He _ email cooldownEnd w1 r. subst r w1 email cooldownEnd.
  pose proof (sendPasswordReset_returns E (String c s) w) as Hret.
  run_handler. hstep. rewrite Hu. hstep. rewrite He. hstep.
  destruct (sendPasswordReset E (String c s) w) as [[e | []] w1];
    [discriminate |].
  hstep. unfold SettingsDialog.PASSWORD_COOLDOWN_MS.
  change (15 * 60 * 1000)%Z with 900000%Z.
  destruct (Q "passwordCooldownEnd" (Num.to_String (now E + 900000)));
    unfold throw; hstep; repeat split.
Qed.

(** The provider fails to send the email, and the storage is full. *)
Lemma handleChangePassword_starts_cooldown_witness :
  let E := Scene.at_time 1700000000000 (Some Sample.network_failed) in
  let r := SettingsDialog.handleChangePassword E Scene.roomy
             (SettingsDialog.initial None) Scene.signed_in in
  let r' := SettingsDialog.handleChangePassword E Scene.full
              (SettingsDialog.initial None) Scene.signed_in in
  (fst r = inr tt
   /\ SettingsDialog.cooldownEndTime (fst (snd r)) = Some 1700000900000%Z
   /\ localStorage (snd (snd r)) !! "passwordCooldownEnd"
      = Some "1700000900000"
   /\ Toasted (SettingsDialog.email_sent "user@gmail.com")
      ∈ trace (snd (snd r)))
  /\ (fst r' = inr tt
      /\ SettingsDialog.cooldownEndTime (fst (snd r')) = Some 1700000900000%Z
      /\ localStorage (snd (snd r')) !! "passwordCooldownEnd" = None).
Proof.
  split.
  - destruct (handleChangePassword_starts_cooldown
                (Scene.at_time 1700000000000 (Some Sample.network_failed))
                Scene.roomy
                (SettingsDialog.initial None) Scene.signed_in Sample.ada
                "u"%char "ser@gmail.com" eq_refl eq_refl
                ltac:(unfold Num.time_value; cbn [now Scene.at_time]; lia))
      as (Hr & Hc & _ & Hw).
    split; [exact Hr | split; [exact Hc |]].
    rewrite Hw. split; [by vm_compute |].
    cbn [trace]. rewrite elem_of_app, elem_of_cons. right. by left.
  - destruct (handleChangePassword_starts_cooldown
                (Scene.at_time 1700000000000 (Some Sample.network_failed))
                Scene.full
                (SettingsDialog.initial None) Scene.signed_in Sample.ada
                "u"%char "ser@gmail.com" eq_refl eq_refl
                ltac:(unfold Num.time_value; cbn [now Scene.at_time]; lia))
      as (Hr & Hc & _ & Hw).
    split; [exact Hr | split; [exact Hc |]].
    rewrite Hw. by vm_compute.
Defined.

(** X24. Without a signed-in user, or for a user without an email,
    [handleChangePassword] does nothing at all. *)
Theorem handleChangePassword_signed_out
    (E : Env) (Q : Quota) (d : SettingsDialog.t) (w : World) :
  (user w = None
   \/ exists u, user w = Some u
                /\ (User.email u = None \/ User.email u = Some EmptyString)) ->
  SettingsDialog.handleChangePassword E Q d w = (inr tt, (d, w)).
Proof.
  intros H. run_handler. hstep.
  destruct H as [-> | (u & -> & [-> | ->])]; reflexivity.
Qed.

Lemma handleChangePassword_signed_out_witness :
  SettingsDialog.handleChangePassword Sample.calm Scene.roomy
    (SettingsDialog.initial None) Sample.start
  = (inr tt, (SettingsDialog.initial None, Sample.start)).
Proof.
  apply (handleChangePassword_signed_out Sample.calm Scene.roomy). by left.
Defined.

(** The entry that [handleChangePassword] leaves in a storage that takes
    it. *)
Lemma handleChangePassword_cooldown_written E Q d w u c s :
  user w = Some u ->
  User.email u = Some (String c s) ->
  Num.time_value (now E) ->
  Q "passwordCooldownEnd" (Num.to_String (now E + 900000)) = None ->
  exists text c0 s0,
    text = String c0 s0
    /\ Num.parseInt text = Some (now E + 900000)%Z
    /\ localStorage (snd (snd (SettingsDialog.handleChangePassword E Q d w)))
         !! "passwordCooldownEnd" = Some text.
Proof.
  intros Hu He Hnow HQ.
  destruct (to_String_nonempty (now E + 900000)) as (c0 & s0 & Htext).
  exists (Num.to_String (now E + 900000)), c0, s0.
  split; [done |]. split.
  { apply parseInt_to_String. unfold Num.time_value in Hnow. lia. }
  pose proof (sendPasswordReset_returns E (String c s) w) as Hret.
  run_handler. hstep. rewrite Hu. hstep. rewrite He. hstep.
  destruct (sendPasswordReset E (String c s) w) as [[e | []] w1];
    [discriminate |].
  hstep. unfold SettingsDialog.PASSWORD_COOLDOWN_MS.
  change (15 * 60 * 1000)%Z with 900000%Z.
  rewrite HQ. hstep. apply lookup_insert_eq.
Qed.

(** X25. The cooldown survives closing the dialog: when the storage
    took the end time written by [handleChangePassword] and the dialog is
    opened again before the end, the effect restores that end time and
    keeps the entry; at or after the end the entry is removed and no
    cooldown is restored. *)
Theorem cooldown_restored_on_open
    (E E' : Env) (Q : Quota) (d d' : SettingsDialog.t) (w : World)
    (u : User.t) (c : ascii) (s : string) (apiKey : option string) :
  user w = Some u ->
  User.email u = Some (String c s) ->
  Num.time_value (now E) ->
  Num.time_value (now E') ->
  let cooldownEnd := (now E + 900000)%Z in
  Q "passwordCooldownEnd" (Num.to_String cooldownEnd) = None ->
  let w1 := snd (snd (SettingsDialog.handleChangePassword E Q d w)) in
  let r := SettingsDialog.openEffect E' apiKey d' w1 in
  fst r = inr tt
  /\ if (now E' <? cooldownEnd)%Z
     then SettingsDialog.cooldownEndTime (fst (snd r)) = Some cooldownEnd
          /\ snd (snd r) = w1
     else SettingsDialog.cooldownEndTime (fst (snd r))
          = SettingsDialog.cooldownEndTime d'
          /\ localStorage (snd (snd r)) !! "passwordCooldownEnd" = None.
Proof.
  intros Hu He Hnow _ cooldownEnd HQ w1 r.
  destruct (handleChangePassword_cooldown_written E Q d w u c s Hu He Hnow HQ)
    as (text & c0 & s0 & -> & Hparse & Hstored).
  fold w1 in Hstored. subst r. run_handler. hstep.
  rewrite Hstored. hstep. rewrite Hparse.
  unfold Num.gt. fold cooldownEnd.
  destruct (now E' <? cooldownEnd)%Z; hstep.
  - split; [done |]. split; [done |]. by destruct w1.
  - split; [done |]. split; [done |]. apply lookup_delete_eq.
Qed.

(** Five minutes after the request the dialog is opened again. *)
Lemma cooldown_restored_on_open_witness :
  let E := Scene.at_time 1700000000000 None in
  let E' := Scene.at_time 1700000300000 None in
  let w1 := snd (snd (SettingsDialog.handleChangePassword E Scene.roomy
                        (SettingsDialog.initial None) Scene.signed_in)) in
  let r := SettingsDialog.openEffect E' None (SettingsDialog.initial None) w1 in
  fst r = inr tt
  /\ SettingsDialog.cooldownEndTime (fst (snd r)) = Some 1700000900000%Z
  /\ snd (snd r) = w1.
Proof.
  exact (cooldown_restored_on_open
           (Scene.at_time 1700000000000 None)
           (Scene.at_time 1700000300000 None) Scene.roomy
           (SettingsDialog.initial None) (SettingsDialog.initial None)
           Scene.signed_in Sample.ada "u"%char "ser@gmail.com" None
           eq_refl eq_refl
           ltac:(unfold Num.time_value; cbn [now Scene.at_time]; lia)
           ltac:(unfold Num.time_value; cbn [now Scene.at_time]; lia)
           eq_refl).
Defined.

(** X26. A stored end time that has passed, or a stored text that does
    not start with a number, is discarded when the dialog opens: the
    entry is removed from the storage and no cooldown is set.  The text
    is one of at most twenty characters, which [parseInt] reads in one
    way only, and the time is a time value. *)
Theorem stale_cooldown_discarded
    (E : Env) (apiKey : option string) (d : SettingsDialog.t) (w : World)
    (c : ascii) (s : string) :
  localStorage w !! "passwordCooldownEnd" = Some (String c s) ->
  (String.length (String c s) <= 20)%nat ->
  Num.time_value (now E) ->
  Num.gt (Num.parseInt (String c s)) (now E) = false ->
  let r := SettingsDialog.openEffect E apiKey d w in
  fst r = inr tt
  /\ SettingsDialog.cooldownEndTime (fst (snd r))
     = SettingsDialog.cooldownEndTime d
  /\ snd (snd r) =
     {| user := user w; loading := loading w;
        localStorage := delete "passwordCooldownEnd" (localStorage w);
        users := users w; trace := trace w |}.
Proof.
  intros Hstored _ _ Hgt r. subst r. run_handler. hstep.
  rewrite Hstored. hstep. rewrite Hgt. hstep. repeat split.
Qed.

(** A text that is no number, and an end time of the past behind a
    no-break space. *)
Lemma stale_cooldown_discarded_witness :
  let past := String (ascii_of_nat 194) (String (ascii_of_nat 160)
                "1600000000000") in
  let w := initial {[ "passwordCooldownEnd" := "soon" ]} ∅ in
  let w' := initial {[ "passwordCooldownEnd" := past ]} ∅ in
  let r := SettingsDialog.openEffect Sample.calm None
             (SettingsDialog.initial None) w in
  let r' := SettingsDialog.openEffect Sample.calm None
              (SettingsDialog.initial None) w' in
  (fst r = inr tt
   /\ SettingsDialog.cooldownEndTime (fst (snd r)) = None
   /\ snd (snd r) =
      {| user := None; loading := true;
         localStorage := delete "passwordCooldownEnd" (localStorage w);
         users := ∅; trace := [] |})
  /\ (fst r' = inr tt
      /\ SettingsDialog.cooldownEndTime (fst (snd r')) = None
      /\ snd (snd r') =
         {| user := None; loading := true;
            localStorage := delete "passwordCooldownEnd" (localStorage w');
            users := ∅; trace := [] |}).
Proof.
  split.
  - apply (stale_cooldown_discarded Sample.calm None
             (SettingsDialog.initial None)
             (initial {[ "passwordCooldownEnd" := "soon" ]} ∅)
             "s"%char "oon");
      [reflexivity | cbn; lia
      | unfold Num.time_value; cbn [now Sample.calm Sample.env]; lia | reflexivity].
  - apply (stale_cooldown_discarded Sample.calm None
             (SettingsDialog.initial None)
             (initial {[ "passwordCooldownEnd" :=
                String (ascii_of_nat 194) (String (ascii_of_nat 160)
                  "1600000000000") ]} ∅)
             (ascii_of_nat 194) (String (ascii_of_nat 160) "1600000000000"));
      [reflexivity | cbn; lia
      | unfold Num.time_value; cbn [now Sample.calm Sample.env]; lia | reflexivity].
Defined.


